(** * Earthquake visualizer: magnitude bands, statistics, projection, feed ingestion

    A shallow embedding of the logic of the three components:
    - [EarthquakeStats] ([src/components/EarthquakeStats.tsx]), module
      [EarthquakeStats];
    - [EarthquakeMap], whose source follows the page's in
      [src/pages/Index.tsx] (from line 128 on), module [EarthquakeMap];
    - the page [Index] ([src/pages/Index.tsx], lines 1-127), module [Index].

    A JavaScript [number] is an IEEE 754 binary64 value; it is modelled by
    Rocq's primitive [float], whose operations are the binary64 ones.  The
    comparison operators [<] and [>] of the source are [PrimFloat.ltb]. *)

From Stdlib Require Import Floats ZArith List String Bool Lia DecimalString.
Import ListNotations.

Set Warnings "-inexact-float".

Local Open Scope string_scope.
Local Open Scope list_scope.

(** ** JavaScript numbers and the parts of [Math] the source calls *)

Module JS.

Definition number := float.

(** [a < b] and [a > b] on numbers. *)
Definition lt (a b : number) : bool := PrimFloat.ltb a b.
Definition gt (a b : number) : bool := PrimFloat.ltb b a.
Arguments lt (a b)%_float_scope.
Arguments gt (a b)%_float_scope.

Definition is_nan (a : number) : bool := PrimFloat.is_nan a.

(** [Math.max(...values)], ECMAScript 21.3.2.24: start from -Infinity,
    return NaN as soon as a NaN is met, prefer +0 to -0. *)
Definition max_step (highest n : number) : number :=
  let highest :=
    if PrimFloat.Leibniz.eqb n PrimFloat.zero
       && PrimFloat.Leibniz.eqb highest PrimFloat.neg_zero
    then PrimFloat.zero else highest in
  if gt n highest then n else highest.

Fixpoint max_loop (highest : number) (values : list number) : number :=
  match values with
  | [] => highest
  | n :: rest =>
      if is_nan n then PrimFloat.nan else max_loop (max_step highest n) rest
  end.

Definition Math_max (values : list number) : number :=
  max_loop PrimFloat.neg_infinity values.

(** [Math.min(...values)], ECMAScript 21.3.2.25: start from +Infinity,
    return NaN as soon as a NaN is met, prefer -0 to +0. *)
Definition min_step (lowest n : number) : number :=
  let lowest :=
    if PrimFloat.Leibniz.eqb n PrimFloat.neg_zero
       && PrimFloat.Leibniz.eqb lowest PrimFloat.zero
    then PrimFloat.neg_zero else lowest in
  if lt n lowest then n else lowest.

Fixpoint min_loop (lowest : number) (values : list number) : number :=
  match values with
  | [] => lowest
  | n :: rest =>
      if is_nan n then PrimFloat.nan else min_loop (min_step lowest n) rest
  end.

Definition Math_min (values : list number) : number :=
  min_loop PrimFloat.infinity values.

(** The value of [array.length] as a number.  An array has fewer than
    2^32 elements, so the conversion is exact. *)
Definition of_length (n : nat) : number :=
  PrimFloat.of_uint63 (Uint63.of_Z (Z.of_nat n)).

(** The outcome of evaluating an expression: a value, or a thrown error. *)
Inductive Error : Type :=
| MkError (message : string)
| TypeError (message : string).

Inductive Outcome (A : Type) : Type :=
| Return (a : A)
| Throw (e : Error).
Arguments Return {A} a.
Arguments Throw {A} e.

End JS.

(** ** The data model

    [EarthquakeData] is declared, identically, in each of the three files.
    [coordinates] is the triple [[lng, lat, depth]]. *)

Record Geometry : Type := {
  coordinates : JS.number * JS.number * JS.number
}.

Record Properties : Type := {
  mag : JS.number;
  place : string;
  time : JS.number;
  url : string;
  title : string;
  type : string;
  depth : JS.number
}.

Record EarthquakeData : Type := {
  id : string;
  geometry : Geometry;
  properties : Properties
}.

(** [array.reduce(f)] with no initial value: a [TypeError] on the empty
    array, otherwise a left fold that starts from the first element. *)
Definition reduce1 {A : Type} (f : A -> A -> A) (l : list A) : JS.Outcome A :=
  match l with
  | [] => JS.Throw (JS.TypeError "Reduce of empty array with no initial value")
  | x :: rest => JS.Return (fold_left f rest x)
  end.

(** ** The spec's magnitude bands

    The seven bands of the spec's data model and its [classifyMagnitude]
    (section 4.2: a seven-way step function, strict less-than at each of the
    thresholds 1..6), written from the spec's words.  The source has no
    function of that name; its label and bucketing code are compared with
    this one below. *)

Module Spec.

Inductive MagnitudeBand : Type :=
| Micro | Minor | Light | Moderate | Strong | Major | Great.

Definition classifyMagnitude (m : JS.number) : MagnitudeBand :=
  if JS.lt m 1 then Micro
  else if JS.lt m 2 then Minor
  else if JS.lt m 3 then Light
  else if JS.lt m 4 then Moderate
  else if JS.lt m 5 then Strong
  else if JS.lt m 6 then Major
  else Great.

(** [clamp(v, lo, hi)] of the spec's projection formula. *)
Definition clamp (v lo hi : JS.number) : JS.number :=
  if JS.lt v lo then lo else if JS.gt v hi then hi else v.

(** [sum(magnitudes)], accumulated left to right from 0. *)
Fixpoint sum_from (acc : JS.number) (ms : list JS.number) : JS.number :=
  match ms with
  | [] => acc
  | m :: rest => sum_from (acc + m)%float rest
  end.

Definition sum (ms : list JS.number) : JS.number := sum_from 0%float ms.

End Spec.

(** ** [src/components/EarthquakeStats.tsx] *)

Module EarthquakeStats.

(** The [stats] object of [getStatsByMagnitude]. *)
Record Stats : Type := {
  micro : nat;     (* < 1.0 *)
  minor : nat;     (* 1.0-1.9 *)
  light : nat;     (* 2.0-2.9 *)
  moderate : nat;  (* 3.0-3.9 *)
  strong : nat;    (* 4.0-4.9 *)
  major : nat;     (* 5.0-5.9 *)
  great : nat      (* 6.0+ *)
}.

Definition stats_init : Stats :=
  {| micro := 0; minor := 0; light := 0; moderate := 0;
     strong := 0; major := 0; great := 0 |}.

Definition incr_micro (s : Stats) : Stats :=
  {| micro := S (micro s); minor := minor s; light := light s;
     moderate := moderate s; strong := strong s; major := major s;
     great := great s |}.
Definition incr_minor (s : Stats) : Stats :=
  {| micro := micro s; minor := S (minor s); light := light s;
     moderate := moderate s; strong := strong s; major := major s;
     great := great s |}.
Definition incr_light (s : Stats) : Stats :=
  {| micro := micro s; minor := minor s; light := S (light s);
     moderate := moderate s; strong := strong s; major := major s;
     great := great s |}.
Definition incr_moderate (s : Stats) : Stats :=
  {| micro := micro s; minor := minor s; light := light s;
     moderate := S (moderate s); strong := strong s; major := major s;
     great := great s |}.
Definition incr_strong (s : Stats) : Stats :=
  {| micro := micro s; minor := minor s; light := light s;
     moderate := moderate s; strong := S (strong s); major := major s;
     great := great s |}.
Definition incr_major (s : Stats) : Stats :=
  {| micro := micro s; minor := minor s; light := light s;
     moderate := moderate s; strong := strong s; major := S (major s);
     great := great s |}.
Definition incr_great (s : Stats) : Stats :=
  {| micro := micro s; minor := minor s; light := light s;
     moderate := moderate s; strong := strong s; major := major s;
     great := S (great s) |}.

(** The body of the [forEach] callback, on the mutable [stats]. *)
Definition count_event (stats : Stats) (eq : EarthquakeData) : Stats :=
  let mag := mag (properties eq) in
  if JS.lt mag 1 then incr_micro stats
  else if JS.lt mag 2 then incr_minor stats
  else if JS.lt mag 3 then incr_light stats
  else if JS.lt mag 4 then incr_moderate stats
  else if JS.lt mag 5 then incr_strong stats
  else if JS.lt mag 6 then incr_major stats
  else incr_great stats.

Definition getStatsByMagnitude (earthquakes : list EarthquakeData) : Stats :=
  fold_left count_event earthquakes stats_init.

Definition getMaxMagnitude (earthquakes : list EarthquakeData) : JS.number :=
  JS.Math_max (map (fun eq => mag (properties eq)) earthquakes).

Definition getAverageMagnitude (earthquakes : list EarthquakeData)
  : JS.number :=
  let total :=
    fold_left (fun sum eq => (sum + mag (properties eq))%float)
              earthquakes 0%float in
  (total / JS.of_length (List.length earthquakes))%float.

Definition getMostRecentEarthquake (earthquakes : list EarthquakeData)
  : JS.Outcome EarthquakeData :=
  reduce1 (fun latest current =>
             if JS.gt (time (properties current)) (time (properties latest))
             then current else latest)
          earthquakes.

(** One row of the "Magnitude Distribution" table. *)
Record DistributionRow : Type := {
  row_label : string;
  row_count : nat;
  row_color : string
}.

Definition distribution (stats : Stats) : list DistributionRow :=
  [ {| row_label := "Great (6.0+)"; row_count := great stats;
       row_color := "magnitude-great" |};
    {| row_label := "Major (5.0-5.9)"; row_count := major stats;
       row_color := "magnitude-major" |};
    {| row_label := "Strong (4.0-4.9)"; row_count := strong stats;
       row_color := "magnitude-strong" |};
    {| row_label := "Moderate (3.0-3.9)"; row_count := moderate stats;
       row_color := "magnitude-moderate" |};
    {| row_label := "Light (2.0-2.9)"; row_count := light stats;
       row_color := "magnitude-light" |};
    {| row_label := "Minor (1.0-1.9)"; row_count := minor stats;
       row_color := "magnitude-minor" |};
    {| row_label := "Micro (<1.0)"; row_count := micro stats;
       row_color := "magnitude-minor" |} ].

(** The [backgroundColor] of a row's dot. *)
Definition row_background (r : DistributionRow) : string :=
  "hsl(var(--" ++ row_color r ++ "))".

(** What the component computes before it builds its markup; the number
    formatting ([toFixed], [toLocaleString]) and the markup are left out. *)
Record View : Type := {
  total_events : nat;
  maxMagnitude : JS.number;
  avgMagnitude : JS.number;
  rows : list DistributionRow;
  mostRecent : EarthquakeData
}.

Definition EarthquakeStats (earthquakes : list EarthquakeData)
  : JS.Outcome View :=
  let stats := getStatsByMagnitude earthquakes in
  let maxMagnitude := getMaxMagnitude earthquakes in
  let avgMagnitude := getAverageMagnitude earthquakes in
  match getMostRecentEarthquake earthquakes with
  | JS.Throw e => JS.Throw e
  | JS.Return mostRecent =>
      JS.Return {| total_events := List.length earthquakes;
                   maxMagnitude := maxMagnitude;
                   avgMagnitude := avgMagnitude;
                   rows := distribution stats;
                   mostRecent := mostRecent |}
  end.

End EarthquakeStats.

(** ** The platform the components run on

    The part of the browser the two effects touch: the console, the
    network requests that were started, and the table of interval timers
    with a clock in milliseconds. *)

Module Browser.

(** The functions the source hands to [setInterval]; there is one. *)
Inductive Callback : Type :=
| FetchEarthquakes.

Record Timer : Type := {
  handle : nat;
  delay : Z;
  callback : Callback;
  due : Z
}.

Record t : Type := {
  console : list (string * JS.Error);
  requests : list string;
  now : Z;
  timers : list Timer;
  next_handle : nat
}.

Definition start : t :=
  {| console := []; requests := []; now := 0; timers := [];
     next_handle := 1 |}.

(** What the feed answers. [features] is [None] when the parsed body has
    no [features] field. *)
Record EarthquakeResponse : Type := {
  features : option (list EarthquakeData)
}.

Record Response : Type := {
  ok : bool;
  status : N;
  json : JS.Outcome EarthquakeResponse
}.

(** The settled promise of [fetch(url)]. *)
Inductive FetchResult : Type :=
| Rejected (e : JS.Error)
| Resolved (r : Response).

End Browser.

(** ** State and exceptions

    A computation reads and updates the world and either returns or
    throws; updates made before a [throw] stay. *)

Module Effect.

Record World (C : Type) : Type := {
  component : C;
  browser : Browser.t
}.
Arguments component {C} w.
Arguments browser {C} w.

Definition M (C A : Type) : Type := World C -> JS.Outcome A * World C.

Section Monad.
Context {C : Type}.

Definition ret {A} (a : A) : M C A := fun w => (JS.Return a, w).

Definition bind {A B} (m : M C A) (k : A -> M C B) : M C B :=
  fun w =>
    match m w with
    | (JS.Return a, w') => k a w'
    | (JS.Throw e, w') => (JS.Throw e, w')
    end.

Definition throw {A} (e : JS.Error) : M C A := fun w => (JS.Throw e, w).

(** [await p] on a settled promise. *)
Definition await {A} (p : JS.Outcome A) : M C A := fun w => (p, w).

(** [try { body } catch (err) { handler err } finally { fin }]. *)
Definition try_catch_finally {A}
  (body : M C A) (handler : JS.Error -> M C A) (fin : M C unit) : M C A :=
  fun w =>
    let (r1, w1) := body w in
    let (r2, w2) :=
      match r1 with
      | JS.Return a => (JS.Return a, w1)
      | JS.Throw e => handler e w1
      end in
    match fin w2 with
    | (JS.Return _, w3) => (r2, w3)
    | (JS.Throw e, w3) => (JS.Throw e, w3)
    end.

(** A [useState] setter, seen as an update of the component's state. *)
Definition set_state (f : C -> C) : M C unit :=
  fun w => (JS.Return tt,
            {| component := f (component w); browser := browser w |}).

Definition on_browser (f : Browser.t -> Browser.t) : M C unit :=
  fun w => (JS.Return tt,
            {| component := component w; browser := f (browser w) |}).

Definition console_error (msg : string) (err : JS.Error) : M C unit :=
  on_browser (fun b =>
    {| Browser.console := (msg, err) :: Browser.console b;
       Browser.requests := Browser.requests b;
       Browser.now := Browser.now b;
       Browser.timers := Browser.timers b;
       Browser.next_handle := Browser.next_handle b |}).

(** [await fetch(url)]: the request is started, then the promise settles
    as the network decides. *)
Definition fetch (url : string) (net : Browser.FetchResult)
  : M C Browser.Response :=
  fun w =>
    let b := browser w in
    let w' :=
      {| component := component w;
         browser :=
           {| Browser.console := Browser.console b;
              Browser.requests := url :: Browser.requests b;
              Browser.now := Browser.now b;
              Browser.timers := Browser.timers b;
              Browser.next_handle := Browser.next_handle b |} |} in
    match net with
    | Browser.Rejected e => (JS.Throw e, w')
    | Browser.Resolved r => (JS.Return r, w')
    end.

(** [setInterval(callback, delay)]: a new timer, first due [delay]
    milliseconds from now; its handle is returned. *)
Definition setInterval (cb : Browser.Callback) (delay : Z) : M C nat :=
  fun w =>
    let b := browser w in
    let h := Browser.next_handle b in
    (JS.Return h,
     {| component := component w;
        browser :=
          {| Browser.console := Browser.console b;
             Browser.requests := Browser.requests b;
             Browser.now := Browser.now b;
             Browser.timers :=
               Browser.timers b ++
               [ {| Browser.handle := h; Browser.delay := delay;
                    Browser.callback := cb;
                    Browser.due := (Browser.now b + delay)%Z |} ];
             Browser.next_handle := S h |} |}).

(** [clearInterval(handle)]. *)
Definition clearInterval (h : nat) : M C unit :=
  on_browser (fun b =>
    {| Browser.console := Browser.console b;
       Browser.requests := Browser.requests b;
       Browser.now := Browser.now b;
       Browser.timers :=
         filter (fun t => negb (Nat.eqb (Browser.handle t) h))
                (Browser.timers b);
       Browser.next_handle := Browser.next_handle b |}).

End Monad.

Module Notations.
Declare Scope effect_scope.
Delimit Scope effect_scope with effect.
Notation "x <- m ;; k" := (bind m (fun x => k))
  (at level 61, m at next level, right associativity) : effect_scope.
Notation "m ;; k" := (bind m (fun _ => k))
  (at level 61, right associativity) : effect_scope.
End Notations.

End Effect.

(** The number in a template literal, for the integers a status can be. *)
Definition number_to_string (n : N) : string :=
  NilEmpty.string_of_uint (N.to_uint n).

Definition FEED_URL : string :=
  "https://earthquake.usgs.gov/earthquakes/feed/v1.0/summary/all_day.geojson".

(** ** The component [EarthquakeMap] ([src/pages/Index.tsx], second part) *)

Module EarthquakeMap.

Import Effect Effect.Notations.

Record State : Type := {
  earthquakes : list EarthquakeData;
  loading : bool;
  error : option string;
  selectedEarthquake : option EarthquakeData
}.

(** [useState] initial values. *)
Definition initial_state : State :=
  {| earthquakes := []; loading := true; error := None;
     selectedEarthquake := None |}.

Definition setEarthquakes (v : list EarthquakeData) : M State unit :=
  set_state (fun s =>
    {| earthquakes := v; loading := loading s; error := error s;
       selectedEarthquake := selectedEarthquake s |}).

Definition setLoading (v : bool) : M State unit :=
  set_state (fun s =>
    {| earthquakes := earthquakes s; loading := v; error := error s;
       selectedEarthquake := selectedEarthquake s |}).

Definition setError (v : option string) : M State unit :=
  set_state (fun s =>
    {| earthquakes := earthquakes s; loading := loading s; error := v;
       selectedEarthquake := selectedEarthquake s |}).

(** The [try] block of [fetchEarthquakes]. *)
Definition fetch_try (net : Browser.FetchResult) : M State unit :=
  (setLoading true ;;
   response <- fetch FEED_URL net ;;
   (if negb (Browser.ok response)
    then throw (JS.MkError ("HTTP error! status: "
                            ++ number_to_string (Browser.status response)))
    else ret tt) ;;
   data <- await (Browser.json response) ;;
   setEarthquakes (match Browser.features data with
                   | Some features => features
                   | None => []
                   end) ;;
   setError None)%effect.

Definition fetch_catch (err : JS.Error) : M State unit :=
  (console_error "Error fetching earthquake data:" err ;;
   setError (Some "Failed to load earthquake data. Please try again later."))
  %effect.

Definition fetchEarthquakes (net : Browser.FetchResult) : M State unit :=
  try_catch_finally (fetch_try net) fetch_catch (setLoading false).

(** The interval of the refresh timer, as the source writes it. *)
Definition REFRESH_MS : Z := 5 * 60 * 1000.

(** The body of [useEffect]: fetch, start the timer, and return the
    cleanup, which is [clearInterval] of the handle it captured. *)
Definition effect (net : Browser.FetchResult) : M State (M State unit) :=
  (fetchEarthquakes net ;;
   interval <- setInterval Browser.FetchEarthquakes REFRESH_MS ;;
   ret (clearInterval interval))%effect.

Definition getMagnitudeColor (magnitude : JS.number) : string :=
  if JS.lt magnitude 1 then "hsl(var(--magnitude-minor))"
  else if JS.lt magnitude 2 then "hsl(var(--magnitude-light))"
  else if JS.lt magnitude 3 then "hsl(var(--magnitude-moderate))"
  else if JS.lt magnitude 4 then "hsl(var(--magnitude-strong))"
  else if JS.lt magnitude 5 then "hsl(var(--magnitude-major))"
  else "hsl(var(--magnitude-great))".

Definition getMagnitudeSize (magnitude : JS.number) : JS.number :=
  JS.Math_max [8; magnitude * 4]%float.

Definition getMagnitudeLabel (magnitude : JS.number) : string :=
  if JS.lt magnitude 1 then "Micro"
  else if JS.lt magnitude 2 then "Minor"
  else if JS.lt magnitude 3 then "Light"
  else if JS.lt magnitude 4 then "Moderate"
  else if JS.lt magnitude 5 then "Strong"
  else if JS.lt magnitude 6 then "Major"
  else "Great".

Record ScreenPosition : Type := {
  x : JS.number;
  y : JS.number
}.

(** Simple equirectangular projection. *)
Definition latLngToScreen (lat lng : JS.number) : ScreenPosition :=
  let x := (((lng + 180) / 360) * 100)%float in
  let y := (((90 - lat) / 180) * 100)%float in
  {| x := JS.Math_max [0%float; JS.Math_min [100%float; x]];
     y := JS.Math_max [0%float; JS.Math_min [100%float; y]] |}.

(** The rows of the "Magnitude Scale" legend. *)
Record LegendRow : Type := {
  range : string;
  color : string;
  label : string
}.

Definition legend : list LegendRow :=
  [ {| range := "6.0+"; color := "hsl(var(--magnitude-great))";
       label := "Great" |};
    {| range := "5.0-5.9"; color := "hsl(var(--magnitude-major))";
       label := "Major" |};
    {| range := "4.0-4.9"; color := "hsl(var(--magnitude-strong))";
       label := "Strong" |};
    {| range := "3.0-3.9"; color := "hsl(var(--magnitude-moderate))";
       label := "Moderate" |};
    {| range := "2.0-2.9"; color := "hsl(var(--magnitude-light))";
       label := "Light" |};
    {| range := "<2.0"; color := "hsl(var(--magnitude-minor))";
       label := "Minor" |} ].

(** The color the legend shows next to a label. *)
Definition legend_color (l : string) : option string :=
  option_map color (find (fun r => String.eqb (label r) l) legend).

End EarthquakeMap.

(** ** The page [Index] ([src/pages/Index.tsx], first part) *)

Module Index.

Import Effect Effect.Notations.

Record State : Type := {
  earthquakes : list EarthquakeData;
  loading : bool
}.

Definition initial_state : State :=
  {| earthquakes := []; loading := true |}.

Definition setEarthquakes (v : list EarthquakeData) : M State unit :=
  set_state (fun s => {| earthquakes := v; loading := loading s |}).

Definition setLoading (v : bool) : M State unit :=
  set_state (fun s => {| earthquakes := earthquakes s; loading := v |}).

Definition fetch_try (net : Browser.FetchResult) : M State unit :=
  (setLoading true ;;
   response <- fetch FEED_URL net ;;
   (if negb (Browser.ok response)
    then throw (JS.MkError ("HTTP error! status: "
                            ++ number_to_string (Browser.status response)))
    else ret tt) ;;
   data <- await (Browser.json response) ;;
   setEarthquakes (match Browser.features data with
                   | Some features => features
                   | None => []
                   end))%effect.

Definition fetch_catch (err : JS.Error) : M State unit :=
  console_error "Error fetching earthquake data:" err.

Definition fetchEarthquakes (net : Browser.FetchResult) : M State unit :=
  try_catch_finally (fetch_try net) fetch_catch (setLoading false).

(** The body of [useEffect]: one fetch, no timer, no cleanup. *)
Definition effect (net : Browser.FetchResult) : M State unit :=
  fetchEarthquakes net.

(** The statistics panel of the page: the component under the guard
    [!loading && earthquakes.length > 0], the placeholder card otherwise.
    The component is a parameter, so that what the page asks of it can be
    stated; the page passes [EarthquakeStats.EarthquakeStats]. *)
Inductive Panel (V : Type) : Type :=
| StatsPanel (view : V)
| LoadingStatistics.
Arguments StatsPanel {V} view.
Arguments LoadingStatistics {V}.

Definition render_panel {V : Type}
  (component : list EarthquakeData -> JS.Outcome V) (s : State)
  : JS.Outcome (Panel V) :=
  if negb (loading s) && (0 <? List.length (earthquakes s))%nat
  then match component (earthquakes s) with
       | JS.Return view => JS.Return (StatsPanel view)
       | JS.Throw e => JS.Throw e
       end
  else JS.Return LoadingStatistics.

Definition statistics_panel (s : State)
  : JS.Outcome (Panel EarthquakeStats.View) :=
  render_panel EarthquakeStats.EarthquakeStats s.

End Index.

(** ** Mounting, unmounting and the passage of time

    React runs the body of [useEffect(..., [])] once when the component is
    mounted and keeps the function it returns; it calls that function when
    the component is unmounted.  The browser fires an interval timer each
    time its due time is reached and schedules it [delay] later. *)

Module Runtime.

Import Effect Effect.Notations.

Record Instance : Type := {
  world : World EarthquakeMap.State;
  cleanup : option (M EarthquakeMap.State unit)
}.

(** The network, as the answer it gives to a request started at a time. *)
Definition Network : Type := Z -> Browser.FetchResult.

Definition mount (net : Network) (w : World EarthquakeMap.State) : Instance :=
  match EarthquakeMap.effect (net (Browser.now (browser w))) w with
  | (JS.Return c, w') => {| world := w'; cleanup := Some c |}
  | (JS.Throw _, w') => {| world := w'; cleanup := None |}
  end.

Definition unmount (i : Instance) : Instance :=
  match cleanup i with
  | Some c => {| world := snd (c (world i)); cleanup := None |}
  | None => i
  end.

Definition run_callback (net : Network) (cb : Browser.Callback)
  : M EarthquakeMap.State unit :=
  fun w =>
    match cb with
    | Browser.FetchEarthquakes =>
        EarthquakeMap.fetchEarthquakes (net (Browser.now (browser w))) w
    end.

Definition advance_clock {C} : M C unit :=
  on_browser (fun b =>
    {| Browser.console := Browser.console b;
       Browser.requests := Browser.requests b;
       Browser.now := (Browser.now b + 1)%Z;
       Browser.timers := Browser.timers b;
       Browser.next_handle := Browser.next_handle b |}).

Definition reschedule {C} (h : nat) : M C unit :=
  on_browser (fun b =>
    {| Browser.console := Browser.console b;
       Browser.requests := Browser.requests b;
       Browser.now := Browser.now b;
       Browser.timers :=
         map (fun t =>
                if Nat.eqb (Browser.handle t) h
                then {| Browser.handle := Browser.handle t;
                        Browser.delay := Browser.delay t;
                        Browser.callback := Browser.callback t;
                        Browser.due := (Browser.due t + Browser.delay t)%Z |}
                else t)
             (Browser.timers b);
       Browser.next_handle := Browser.next_handle b |}).

Definition fire (net : Network) (t : Browser.Timer)
  : M EarthquakeMap.State unit :=
  (reschedule (Browser.handle t) ;;
   run_callback net (Browser.callback t))%effect.

(** One millisecond passes: the clock advances and every timer that is
    due fires. *)
Definition tick (net : Network) (w : World EarthquakeMap.State)
  : World EarthquakeMap.State :=
  let w1 := snd (advance_clock w) in
  fold_left
    (fun w t =>
       if (Browser.due t =? Browser.now (browser w1))%Z
       then snd (fire net t w) else w)
    (Browser.timers (browser w1)) w1.

Fixpoint run_for (net : Network) (ms : nat) (w : World EarthquakeMap.State)
  : World EarthquakeMap.State :=
  match ms with
  | O => w
  | S ms' => run_for net ms' (tick net w)
  end.

Definition elapse (net : Network) (ms : nat) (i : Instance) : Instance :=
  {| world := run_for net ms (world i); cleanup := cleanup i |}.

(** The page's own effect ([Index]) on mount. *)
Definition mount_index (net : Network) (w : World Index.State)
  : World Index.State :=
  snd (Index.effect (net (Browser.now (browser w))) w).

End Runtime.

(** ** What [EarthquakeMap] renders

    The three branches of the component's [return]: the spinner while
    [loading], the error card when [error] is set, the map otherwise.  Of
    the map, the markers, the legend and the card of the selected event
    are kept with the values the markup is built from; the formatting of
    numbers ([toFixed], [toLocaleString], the [%] and [px] suffixes), the
    static grid and the class names are left out. *)

Module MapRender.

Import Effect Effect.Notations.

Definition setSelectedEarthquake (v : option EarthquakeData)
  : M EarthquakeMap.State unit :=
  set_state (fun s =>
    {| EarthquakeMap.earthquakes := EarthquakeMap.earthquakes s;
       EarthquakeMap.loading := EarthquakeMap.loading s;
       EarthquakeMap.error := EarthquakeMap.error s;
       EarthquakeMap.selectedEarthquake := v |}).

(** One marker button.  [onClick] is the event the click handler passes
    to [setSelectedEarthquake]; [blur] and [glow] are the radius and the
    color of the [boxShadow]. *)
Record Marker : Type := {
  key : string;
  left : JS.number;
  top : JS.number;
  width : JS.number;
  height : JS.number;
  backgroundColor : string;
  blur : JS.number;
  glow : string;
  onClick : EarthquakeData
}.

Definition marker (earthquake : EarthquakeData) : Marker :=
  let '(lng, lat, _) := coordinates (geometry earthquake) in
  let magnitude := mag (properties earthquake) in
  let position := EarthquakeMap.latLngToScreen lat lng in
  let size := EarthquakeMap.getMagnitudeSize magnitude in
  {| key := id earthquake;
     left := EarthquakeMap.x position;
     top := EarthquakeMap.y position;
     width := size;
     height := size;
     backgroundColor := EarthquakeMap.getMagnitudeColor magnitude;
     blur := (size / 2)%float;
     glow := EarthquakeMap.getMagnitudeColor magnitude ++ "50";
     onClick := earthquake |}.

(** The click on a marker and the click on the card's close button. *)
Definition click (m : Marker) : M EarthquakeMap.State unit :=
  setSelectedEarthquake (Some (onClick m)).

Definition close : M EarthquakeMap.State unit :=
  setSelectedEarthquake None.

(** The card of the selected event. *)
Record Details : Type := {
  details_magnitude : JS.number;
  details_badge : string;
  details_place : string;
  details_time : JS.number;
  details_depth : JS.number;
  details_latitude : JS.number;
  details_longitude : JS.number;
  details_type : string;
  details_url : string
}.

Definition details (selected : EarthquakeData) : Details :=
  let '(lng, lat, depth_km) := coordinates (geometry selected) in
  {| details_magnitude := mag (properties selected);
     details_badge :=
       EarthquakeMap.getMagnitudeLabel (mag (properties selected));
     details_place := place (properties selected);
     details_time := time (properties selected);
     details_depth := depth_km;
     details_latitude := lat;
     details_longitude := lng;
     details_type := type (properties selected);
     details_url := url (properties selected) |}.

Inductive View : Type :=
| Loading
| ErrorCard (message : string)
| Map (markers : list Marker) (legend : list EarthquakeMap.LegendRow)
      (card : option Details).

(** [if (error)] on a [string | null]: the empty string is falsy. *)
Definition truthy (v : option string) : option string :=
  match v with
  | Some "" => None
  | other => other
  end.

Definition render (s : EarthquakeMap.State) : View :=
  if EarthquakeMap.loading s then Loading
  else match truthy (EarthquakeMap.error s) with
       | Some message => ErrorCard message
       | None =>
           Map (map marker (EarthquakeMap.earthquakes s))
               EarthquakeMap.legend
               (option_map details (EarthquakeMap.selectedEarthquake s))
       end.

End MapRender.

(** ** The page with the map mounted in it

    [Index] renders [<EarthquakeMap />] unconditionally, so the page holds
    the state of both components over one browser.  On mount React runs
    the child's effect before the parent's. *)

Module Page.

Import Effect Effect.Notations.

Record State : Type := {
  index : Index.State;
  earthquake_map : EarthquakeMap.State
}.

Definition initial_state : State :=
  {| index := Index.initial_state;
     earthquake_map := EarthquakeMap.initial_state |}.

(** A computation of one component, run on the page. *)
Definition in_index {A} (m : M Index.State A) : M State A :=
  fun w =>
    let (r, w') :=
      m {| component := index (component w); browser := browser w |} in
    (r, {| component :=
             {| index := component w';
                earthquake_map := earthquake_map (component w) |};
           browser := browser w' |}).

Definition in_map {A} (m : M EarthquakeMap.State A) : M State A :=
  fun w =>
    let (r, w') :=
      m {| component := earthquake_map (component w);
           browser := browser w |} in
    (r, {| component :=
             {| index := index (component w);
                earthquake_map := component w' |};
           browser := browser w' |}).

(** Who asked: the two components fetch the same URL independently. *)
Inductive Requester : Type :=
| ByIndex
| ByMap.

Definition Network : Type := Requester -> Z -> Browser.FetchResult.

Record Instance : Type := {
  world : World State;
  cleanup : option (M State unit)
}.

Definition mount (net : Network) (w : World State) : Instance :=
  match in_map (EarthquakeMap.effect
                  (net ByMap (Browser.now (browser w)))) w with
  | (JS.Return c, w1) =>
      {| world :=
           snd (in_index (Index.effect
                            (net ByIndex (Browser.now (browser w1)))) w1);
         cleanup := Some (in_map c) |}
  | (JS.Throw _, w1) =>
      {| world :=
           snd (in_index (Index.effect
                            (net ByIndex (Browser.now (browser w1)))) w1);
         cleanup := None |}
  end.

Definition unmount (i : Instance) : Instance :=
  match cleanup i with
  | Some c => {| world := snd (c (world i)); cleanup := None |}
  | None => i
  end.

Definition run_callback (net : Network) (cb : Browser.Callback)
  : M State unit :=
  fun w =>
    match cb with
    | Browser.FetchEarthquakes =>
        in_map (EarthquakeMap.fetchEarthquakes
                  (net ByMap (Browser.now (browser w)))) w
    end.

Definition fire (net : Network) (t : Browser.Timer) : M State unit :=
  (Runtime.reschedule (Browser.handle t) ;;
   run_callback net (Browser.callback t))%effect.

Definition tick (net : Network) (w : World State) : World State :=
  let w1 := snd (Runtime.advance_clock w) in
  fold_left
    (fun w t =>
       if (Browser.due t =? Browser.now (browser w1))%Z
       then snd (fire net t w) else w)
    (Browser.timers (browser w1)) w1.

Fixpoint run_for (net : Network) (ms : nat) (w : World State)
  : World State :=
  match ms with
  | O => w
  | S ms' => run_for net ms' (tick net w)
  end.

Definition elapse (net : Network) (ms : nat) (i : Instance) : Instance :=
  {| world := run_for net ms (world i); cleanup := cleanup i |}.

(** What the page shows: the map's view and the statistics panel. *)
Definition render (s : State)
  : MapRender.View * JS.Outcome (Index.Panel EarthquakeStats.View) :=
  (MapRender.render (earthquake_map s), Index.statistics_panel (index s)).

End Page.

(** ** Sample data

    The three events of the spec's worked example (section 8), and a
    collection in which two events share the latest time. *)

Module Sample.

Definition event (name : string) (m t : JS.number) : EarthquakeData :=
  {| id := name;
     geometry := {| coordinates := (0, 0, 0)%float |};
     properties :=
       {| mag := m; place := ""; time := t; url := ""; title := "";
          type := "earthquake"; depth := 0%float |} |}.

Definition events : list EarthquakeData :=
  [ event "a" 2.5 100; event "b" 5.1 300; event "c" 1.0 200 ]%float.

Definition tied : list EarthquakeData :=
  [ event "a" 2.5 100; event "b" 5.1 300; event "c" 1.0 200;
    event "d" 4.0 300 ]%float.

End Sample.

(** * Properties *)

(** ** Order facts about binary64 comparison *)

Module FloatOrder.

Import JS.

Definition cmp (a b : float) : option comparison :=
  SFcompare (Prim2SF a) (Prim2SF b).

Lemma ltb_cmp a b : PrimFloat.ltb a b = true <-> cmp a b = Some Lt.
Proof.
  rewrite FloatAxioms.ltb_spec. unfold SFltb, cmp.
  destruct (SFcompare _ _) as [[]|]; split; congruence.
Qed.

Lemma leb_cmp a b :
  PrimFloat.leb a b = true <-> cmp a b = Some Lt \/ cmp a b = Some Eq.
Proof.
  rewrite FloatAxioms.leb_spec. unfold SFleb, cmp.
  destruct (SFcompare _ _) as [[]|]; split;
    try tauto; try congruence; intros [H|H]; congruence.
Qed.

Lemma eqb_cmp a b : PrimFloat.eqb a b = true <-> cmp a b = Some Eq.
Proof.
  rewrite FloatAxioms.eqb_spec. unfold SFeqb, cmp.
  destruct (SFcompare _ _) as [[]|]; split; congruence.
Qed.

Lemma SFcompare_refl x : SFcompare x x = None \/ SFcompare x x = Some Eq.
Proof.
  destruct x as [s|s| |s m e]; simpl; auto; destruct s; auto;
    rewrite Z.compare_refl, Pos.compare_cont_refl; auto.
Qed.

Lemma SFcompare_None x y :
  SFcompare x y = None <-> x = S754_nan \/ y = S754_nan.
Proof.
  destruct x as [s|s| |s m e], y as [s'|s'| |s' m' e']; simpl;
    split; auto; try discriminate; intros [H|H]; discriminate.
Qed.

Lemma is_nan_cmp a : is_nan a = true <-> Prim2SF a = S754_nan.
Proof.
  unfold is_nan, PrimFloat.is_nan. rewrite FloatAxioms.eqb_spec. unfold SFeqb.
  destruct (Prim2SF a) as [s|s| |s m e]; simpl.
  - split; discriminate.
  - destruct s; split; discriminate.
  - split; reflexivity.
  - destruct s; rewrite Z.compare_refl, Pos.compare_cont_refl; simpl;
      split; discriminate.
Qed.

Lemma is_nan_false a : is_nan a = false <-> Prim2SF a <> S754_nan.
Proof.
  rewrite <- is_nan_cmp. destruct (is_nan a); split; congruence.
Qed.

Lemma cmp_None a b : cmp a b = None <-> is_nan a = true \/ is_nan b = true.
Proof. unfold cmp. rewrite SFcompare_None, !is_nan_cmp. tauto. Qed.

Lemma SFcompare_antisym x y :
  SFcompare y x = option_map CompOpp (SFcompare x y).
Proof.
  destruct x as [s|s| |s m e], y as [s'|s'| |s' m' e']; simpl; auto;
    try (destruct s; reflexivity); try (destruct s'; reflexivity);
    try (destruct s, s'; reflexivity).
  destruct s, s'; simpl; auto;
    rewrite (Z.compare_antisym e e');
    destruct (e ?= e')%Z; simpl; auto;
    rewrite !Pos.compare_cont_spec, (Pos.compare_antisym m m'); simpl;
    destruct (m ?= m')%positive; reflexivity.
Qed.

Lemma cmp_antisym a b : cmp b a = option_map CompOpp (cmp a b).
Proof. apply SFcompare_antisym. Qed.

Definition seq_cmp (c1 c2 : comparison) : comparison :=
  match c1, c2 with
  | Eq, Eq => Eq
  | _, _ => Lt
  end.

Ltac split_compare :=
  repeat match goal with
  | H : context [Pos.compare_cont Eq ?a ?b] |- _ =>
      rewrite (Pos.compare_cont_spec a b) in H; simpl in H
  | |- context [Pos.compare_cont Eq ?a ?b] =>
      rewrite (Pos.compare_cont_spec a b); simpl
  | H : context [(?a ?= ?b)%Z] |- _ =>
      destruct (Z.compare_spec a b); simpl in H
  | H : context [(?a ?= ?b)%positive] |- _ =>
      destruct (Pos.compare_spec a b); simpl in H
  | |- context [(?a ?= ?b)%Z] =>
      destruct (Z.compare_spec a b); simpl
  | |- context [(?a ?= ?b)%positive] =>
      destruct (Pos.compare_spec a b); simpl
  end.

(** Comparison of binary64 values is transitive on its non-[Gt] part
    (lexicographic on sign, exponent, mantissa). *)
Lemma SFcompare_trans x y z c1 c2 :
  SFcompare x y = Some c1 -> SFcompare y z = Some c2 ->
  c1 <> Gt -> c2 <> Gt ->
  SFcompare x z = Some (seq_cmp c1 c2).
Proof.
  intros H1 H2 N1 N2.
  destruct x as [s|s| |s m e], y as [s'|s'| |s' m' e'],
           z as [s''|s''| |s'' m'' e'']; simpl in *;
    try discriminate;
    try destruct s; try destruct s'; try destruct s'';
    simpl in *;
    injection H1 as <-; injection H2 as <-;
    try reflexivity; try congruence;
    split_compare; simpl in *;
    try reflexivity; try congruence; try lia.
Qed.

Lemma cmp_trans a b c c1 c2 :
  cmp a b = Some c1 -> cmp b c = Some c2 -> c1 <> Gt -> c2 <> Gt ->
  cmp a c = Some (seq_cmp c1 c2).
Proof. apply SFcompare_trans. Qed.

Lemma ltb_not_nan a b :
  PrimFloat.ltb a b = true -> is_nan a = false /\ is_nan b = false.
Proof.
  rewrite ltb_cmp. intros H.
  destruct (is_nan a) eqn:Ha, (is_nan b) eqn:Hb; auto;
    assert (N : cmp a b = None) by (apply cmp_None; auto); congruence.
Qed.

Lemma ltb_trans a b c :
  PrimFloat.ltb a b = true -> PrimFloat.ltb b c = true ->
  PrimFloat.ltb a c = true.
Proof.
  rewrite !ltb_cmp. intros H1 H2.
  apply (cmp_trans _ _ _ _ _ H1 H2); discriminate.
Qed.

Lemma ltb_irrefl a : PrimFloat.ltb a a = false.
Proof.
  destruct (PrimFloat.ltb a a) eqn:H; auto.
  apply ltb_cmp in H. unfold cmp in H.
  destruct (SFcompare_refl (Prim2SF a)); congruence.
Qed.

Lemma ltb_asym a b : PrimFloat.ltb a b = true -> PrimFloat.ltb b a = false.
Proof.
  intros H. destruct (PrimFloat.ltb b a) eqn:H'; auto.
  pose proof (ltb_trans _ _ _ H H') as C. rewrite ltb_irrefl in C.
  discriminate.
Qed.

(** [a < b] false on two numbers that are not NaN means [b <= a]. *)
Lemma ltb_false_leb a b :
  is_nan a = false -> is_nan b = false ->
  PrimFloat.ltb a b = false -> PrimFloat.leb b a = true.
Proof.
  intros Ha Hb H. apply leb_cmp. rewrite (cmp_antisym a b).
  destruct (cmp a b) as [[]|] eqn:C; simpl; auto.
  - apply ltb_cmp in C. congruence.
  - apply cmp_None in C. destruct C; congruence.
Qed.

Lemma leb_ltb_false a b :
  PrimFloat.leb b a = true -> PrimFloat.ltb a b = false.
Proof.
  rewrite leb_cmp, (cmp_antisym a b). intros H.
  destruct (PrimFloat.ltb a b) eqn:L; auto.
  apply ltb_cmp in L. rewrite L in H. simpl in H.
  destruct H; discriminate.
Qed.

Lemma leb_not_nan a b :
  PrimFloat.leb a b = true -> is_nan a = false /\ is_nan b = false.
Proof.
  rewrite leb_cmp. intros H.
  destruct (is_nan a) eqn:Ha, (is_nan b) eqn:Hb; auto;
    assert (N : cmp a b = None) by (apply cmp_None; auto);
    destruct H; congruence.
Qed.

Lemma leb_refl a : is_nan a = false -> PrimFloat.leb a a = true.
Proof.
  intros H. apply ltb_false_leb; auto. apply ltb_irrefl.
Qed.

Lemma leb_trans a b c :
  PrimFloat.leb a b = true -> PrimFloat.leb b c = true ->
  PrimFloat.leb a c = true.
Proof.
  rewrite !leb_cmp. intros [H1|H1] [H2|H2];
    pose proof (cmp_trans _ _ _ _ _ H1 H2) as T; simpl in T;
    rewrite T by discriminate; auto.
Qed.

Lemma ltb_leb_trans a b c :
  PrimFloat.ltb a b = true -> PrimFloat.leb b c = true ->
  PrimFloat.ltb a c = true.
Proof.
  rewrite !ltb_cmp, leb_cmp. intros H1 [H2|H2];
    apply (cmp_trans _ _ _ _ _ H1 H2); discriminate.
Qed.

Lemma leb_ltb_trans a b c :
  PrimFloat.leb a b = true -> PrimFloat.ltb b c = true ->
  PrimFloat.ltb a c = true.
Proof.
  rewrite !ltb_cmp, leb_cmp. intros [H1|H1] H2;
    apply (cmp_trans _ _ _ _ _ H1 H2); discriminate.
Qed.

Lemma ltb_leb a b : PrimFloat.ltb a b = true -> PrimFloat.leb a b = true.
Proof. rewrite ltb_cmp, leb_cmp. auto. Qed.

Lemma eqb_leb a b : PrimFloat.eqb a b = true -> PrimFloat.leb a b = true.
Proof. rewrite eqb_cmp, leb_cmp. auto. Qed.

Lemma eqb_sym a b : PrimFloat.eqb a b = PrimFloat.eqb b a.
Proof.
  rewrite !FloatAxioms.eqb_spec. unfold SFeqb.
  rewrite (SFcompare_antisym (Prim2SF a) (Prim2SF b)).
  destruct (SFcompare (Prim2SF a) (Prim2SF b)) as [[]|]; reflexivity.
Qed.

Lemma eqb_ltb_false a b :
  PrimFloat.eqb a b = true -> PrimFloat.ltb a b = false.
Proof.
  rewrite eqb_cmp. intros H. destruct (PrimFloat.ltb a b) eqn:L; auto.
  apply ltb_cmp in L. congruence.
Qed.

End FloatOrder.

(** ** Magnitude bands *)

Module BandFacts.

Import Spec.

(** The label the map shows for a band, and the bucket the statistics
    count it in. *)
Definition band_label (b : MagnitudeBand) : string :=
  match b with
  | Micro => "Micro" | Minor => "Minor" | Light => "Light"
  | Moderate => "Moderate" | Strong => "Strong" | Major => "Major"
  | Great => "Great"
  end.

Definition incr_band (b : MagnitudeBand)
  : EarthquakeStats.Stats -> EarthquakeStats.Stats :=
  match b with
  | Micro => EarthquakeStats.incr_micro
  | Minor => EarthquakeStats.incr_minor
  | Light => EarthquakeStats.incr_light
  | Moderate => EarthquakeStats.incr_moderate
  | Strong => EarthquakeStats.incr_strong
  | Major => EarthquakeStats.incr_major
  | Great => EarthquakeStats.incr_great
  end.

(** The thresholds that bound a band: below, included; above, excluded. *)
Definition lower (b : MagnitudeBand) : option JS.number :=
  match b with
  | Micro => None
  | Minor => Some 1%float | Light => Some 2%float
  | Moderate => Some 3%float | Strong => Some 4%float
  | Major => Some 5%float | Great => Some 6%float
  end.

Definition upper (b : MagnitudeBand) : option JS.number :=
  match b with
  | Micro => Some 1%float | Minor => Some 2%float | Light => Some 3%float
  | Moderate => Some 4%float | Strong => Some 5%float
  | Major => Some 6%float
  | Great => None
  end.

(** [m] is not strictly below the band's lower threshold and is strictly
    below its upper one. *)
Definition in_band (b : MagnitudeBand) (m : JS.number) : Prop :=
  match lower b with Some lo => JS.lt m lo = false | None => True end /\
  match upper b with Some hi => JS.lt m hi = true | None => True end.

Definition total (s : EarthquakeStats.Stats) : nat :=
  EarthquakeStats.micro s + EarthquakeStats.minor s + EarthquakeStats.light s
  + EarthquakeStats.moderate s + EarthquakeStats.strong s
  + EarthquakeStats.major s + EarthquakeStats.great s.

(** Below a threshold is below every larger threshold. *)
Lemma lt_threshold_mono (m a b : JS.number) :
  PrimFloat.ltb a b = true -> JS.lt m a = true -> JS.lt m b = true.
Proof.
  unfold JS.lt. intros Hab Hma. exact (FloatOrder.ltb_trans _ _ _ Hma Hab).
Qed.

Lemma classify_in_band (m : JS.number) : in_band (classifyMagnitude m) m.
Proof.
  unfold classifyMagnitude.
  destruct (JS.lt m 1) eqn:H1; [split; simpl; auto|].
  destruct (JS.lt m 2) eqn:H2; [split; simpl; auto|].
  destruct (JS.lt m 3) eqn:H3; [split; simpl; auto|].
  destruct (JS.lt m 4) eqn:H4; [split; simpl; auto|].
  destruct (JS.lt m 5) eqn:H5; [split; simpl; auto|].
  destruct (JS.lt m 6) eqn:H6; split; simpl; auto.
Qed.

Ltac below_above :=
  match goal with
  | Hlo : JS.lt ?m ?lo = false, Hhi : JS.lt ?m ?hi = true |- _ =>
      let C := fresh in
      assert (C : JS.lt m lo = true)
        by (apply (lt_threshold_mono m hi lo); [vm_compute; reflexivity | exact Hhi]);
      rewrite C in Hlo; discriminate Hlo
  end.

Lemma in_band_unique (m : JS.number) (b b' : MagnitudeBand) :
  in_band b m -> in_band b' m -> b = b'.
Proof.
  unfold in_band.
  destruct b, b'; simpl; intros [Hlo Hhi] [Hlo' Hhi'];
    try reflexivity; try congruence; below_above.
Qed.

Lemma label_is_band_label (m : JS.number) :
  EarthquakeMap.getMagnitudeLabel m = band_label (classifyMagnitude m).
Proof.
  unfold EarthquakeMap.getMagnitudeLabel, classifyMagnitude.
  repeat match goal with
         | |- context [JS.lt m ?t] => destruct (JS.lt m t)
         end; reflexivity.
Qed.

Lemma count_event_is_incr_band (stats : EarthquakeStats.Stats)
  (eq : EarthquakeData) :
  EarthquakeStats.count_event stats eq
  = incr_band (classifyMagnitude (mag (properties eq))) stats.
Proof.
  unfold EarthquakeStats.count_event, classifyMagnitude.
  cbv zeta.
  repeat match goal with
         | |- context [JS.lt ?m ?t] => destruct (JS.lt m t)
         end; reflexivity.
Qed.

Lemma total_incr_band (b : MagnitudeBand) (s : EarthquakeStats.Stats) :
  total (incr_band b s) = S (total s).
Proof. destruct b; unfold total; simpl; lia. Qed.

Lemma total_fold (evs : list EarthquakeData) (s : EarthquakeStats.Stats) :
  total (fold_left EarthquakeStats.count_event evs s)
  = total s + List.length evs.
Proof.
  revert s. induction evs as [|e evs IH]; intros s; simpl.
  - lia.
  - rewrite IH, count_event_is_incr_band, total_incr_band. lia.
Qed.

Lemma incr_band_inj (b b' : MagnitudeBand) (s : EarthquakeStats.Stats) :
  incr_band b s = incr_band b' s -> b = b'.
Proof.
  destruct b, b'; simpl; intros H; try reflexivity;
    injection H; intros; exfalso; lia.
Qed.

(** The color shown next to a label: the legend's row for it, and for
    "Micro", which the legend does not list, the row of the statistics
    table. *)
Definition label_color (l : string) : option string :=
  match EarthquakeMap.legend_color l with
  | Some c => Some c
  | None =>
      option_map EarthquakeStats.row_background
        (find (fun r => String.prefix l (EarthquakeStats.row_label r))
              (EarthquakeStats.distribution EarthquakeStats.stats_init))
  end.

(** Where the marker color is the color of the marker's label: below 1 and
    from 6 on (and on NaN), and nowhere in between. *)
Lemma color_matches_label_iff (m : JS.number) :
  label_color (EarthquakeMap.getMagnitudeLabel m)
  = Some (EarthquakeMap.getMagnitudeColor m)
  <-> JS.lt m 1 = true \/ JS.lt m 6 = false.
Proof.
  unfold EarthquakeMap.getMagnitudeLabel, EarthquakeMap.getMagnitudeColor.
  destruct (JS.lt m 1) eqn:H1.
  { split; auto. }
  destruct (JS.lt m 2) eqn:H2.
  { rewrite (lt_threshold_mono m 2%float 6%float eq_refl H2).
    split; [discriminate | intros [H|H]; discriminate]. }
  destruct (JS.lt m 3) eqn:H3.
  { rewrite (lt_threshold_mono m 3%float 6%float eq_refl H3).
    split; [discriminate | intros [H|H]; discriminate]. }
  destruct (JS.lt m 4) eqn:H4.
  { rewrite (lt_threshold_mono m 4%float 6%float eq_refl H4).
    split; [discriminate | intros [H|H]; discriminate]. }
  destruct (JS.lt m 5) eqn:H5.
  { rewrite (lt_threshold_mono m 5%float 6%float eq_refl H5).
    split; [discriminate | intros [H|H]; discriminate]. }
  destruct (JS.lt m 6) eqn:H6.
  { split; [discriminate | intros [H|H]; discriminate]. }
  split; auto.
Qed.

(** C1 (evaluated at the magnitude 1.5, where the source departs from it).
    The label of 1.5 is "Minor" and the legend gives "Minor" the color
    [--magnitude-minor], but the marker color of 1.5 is [--magnitude-light];
    likewise the legend row "2.0-2.9" is colored [--magnitude-light] while
    the marker color of 2.5 is [--magnitude-moderate]. *)
Theorem color_and_label_differ_at_1_5 :
  EarthquakeMap.getMagnitudeLabel 1.5%float = "Minor"
  /\ EarthquakeMap.legend_color "Minor" = Some "hsl(var(--magnitude-minor))"
  /\ EarthquakeMap.getMagnitudeColor 1.5%float = "hsl(var(--magnitude-light))"
  /\ In {| EarthquakeMap.range := "2.0-2.9";
           EarthquakeMap.color := "hsl(var(--magnitude-light))";
           EarthquakeMap.label := "Light" |} EarthquakeMap.legend
  /\ EarthquakeMap.getMagnitudeLabel 2.5%float = "Light"
  /\ EarthquakeMap.getMagnitudeColor 2.5%float = "hsl(var(--magnitude-moderate))".
Proof.
  repeat split; try (vm_compute; reflexivity).
  simpl. tauto.
Qed.

(** C2. The spec's [classifyMagnitude] puts every magnitude in exactly one
    of the seven bands, the one whose half-open interval (strict less-than
    at 1, 2, 3, 4, 5, 6) holds it; 1.999 is minor, 2.0 light, 5.999 major
    and 6.0 great; and the label function and the bucketing of the
    statistics are that same step function. *)
Theorem classify_seven_way_step_function :
  (forall m b, classifyMagnitude m = b <-> in_band b m)
  /\ classifyMagnitude 1.999%float = Minor
  /\ classifyMagnitude 2.0%float = Light
  /\ classifyMagnitude 5.999%float = Major
  /\ classifyMagnitude 6.0%float = Great
  /\ (forall m,
        EarthquakeMap.getMagnitudeLabel m = band_label (classifyMagnitude m))
  /\ (forall stats eq,
        EarthquakeStats.count_event stats eq
        = incr_band (classifyMagnitude (mag (properties eq))) stats).
Proof.
  split.
  { intros m b. split.
    - intros <-. apply classify_in_band.
    - intros H. apply (in_band_unique m); [apply classify_in_band | exact H]. }
  repeat split; try (vm_compute; reflexivity).
  - apply label_is_band_label.
  - apply count_event_is_incr_band.
Qed.

(** C5. Every event goes to exactly one of the seven buckets, and the
    seven counts add up to the number of events. *)
Theorem band_counts_sum_to_length (earthquakes : list EarthquakeData) :
  (forall stats eq,
      exists b, EarthquakeStats.count_event stats eq = incr_band b stats
                /\ forall b', EarthquakeStats.count_event stats eq
                              = incr_band b' stats -> b' = b)
  /\ total (EarthquakeStats.getStatsByMagnitude earthquakes)
     = List.length earthquakes.
Proof.
  split.
  - intros stats eq. exists (classifyMagnitude (mag (properties eq))).
    split; [apply count_event_is_incr_band|].
    intros b' H. rewrite count_event_is_incr_band in H.
    symmetry. exact (incr_band_inj _ _ _ H).
  - unfold EarthquakeStats.getStatsByMagnitude. rewrite total_fold.
    reflexivity.
Qed.

End BandFacts.

(** ** Aggregates of the statistics panel *)

Module StatsFacts.

Import EarthquakeStats.

Definition timeMs (e : EarthquakeData) : JS.number := time (properties e).
Definition magnitude (e : EarthquakeData) : JS.number := mag (properties e).

(** The callback of the [reduce] in [getMostRecentEarthquake]. *)
Definition later (latest current : EarthquakeData) : EarthquakeData :=
  if JS.gt (timeMs current) (timeMs latest) then current else latest.

(** [a] is the element at index [i] of [done], no element of [done] has a
    time strictly greater than [a]'s, and no element before index [i] has
    a time equal to [a]'s. *)
Definition latest_of (done : list EarthquakeData) (a : EarthquakeData)
  (i : nat) : Prop :=
  nth_error done i = Some a
  /\ (forall e, In e done -> JS.gt (timeMs e) (timeMs a) = false)
  /\ (forall j e, j < i -> nth_error done j = Some e ->
                  PrimFloat.eqb (timeMs e) (timeMs a) = false).

Lemma ltb_eqb_trans (a c e : float) :
  PrimFloat.ltb a c = true -> PrimFloat.eqb e c = true ->
  PrimFloat.ltb a e = true.
Proof.
  intros H1 H2. rewrite FloatOrder.eqb_sym in H2.
  apply FloatOrder.ltb_cmp in H1. apply FloatOrder.eqb_cmp in H2.
  apply FloatOrder.ltb_cmp.
  apply (FloatOrder.cmp_trans _ _ _ _ _ H1 H2); discriminate.
Qed.

Lemma latest_of_step (done : list EarthquakeData) (a c : EarthquakeData)
  (i : nat) :
  latest_of done a i ->
  exists i', latest_of (done ++ [c]) (later a c) i'.
Proof.
  intros (Hnth & Hmax & Hfirst). unfold later.
  assert (Hi : i < List.length done)
    by (apply nth_error_Some; congruence).
  destruct (JS.gt (timeMs c) (timeMs a)) eqn:Hgt; unfold JS.gt in *.
  - exists (List.length done). repeat split.
    + rewrite nth_error_app2, Nat.sub_diag by lia. reflexivity.
    + intros e He. apply in_app_or in He. destruct He as [He|[<-|[]]].
      * destruct (PrimFloat.ltb (timeMs c) (timeMs e)) eqn:Hc; auto.
        pose proof (FloatOrder.ltb_trans _ _ _ Hgt Hc) as T.
        rewrite (Hmax e He) in T. discriminate.
      * apply FloatOrder.ltb_irrefl.
    + intros j e Hj Hje. rewrite nth_error_app1 in Hje by lia.
      destruct (PrimFloat.eqb (timeMs e) (timeMs c)) eqn:Heq; auto.
      pose proof (ltb_eqb_trans _ _ _ Hgt Heq) as T.
      rewrite (Hmax e (nth_error_In _ _ Hje)) in T. discriminate.
  - exists i. repeat split.
    + rewrite nth_error_app1 by lia. exact Hnth.
    + intros e He. apply in_app_or in He.
      destruct He as [He|[<-|[]]]; [apply (Hmax e He) | exact Hgt].
    + intros j e Hj Hje. rewrite nth_error_app1 in Hje by lia.
      eapply Hfirst; eauto.
Qed.

Lemma latest_of_fold (rest done : list EarthquakeData) (a : EarthquakeData)
  (i : nat) :
  latest_of done a i ->
  exists i', latest_of (done ++ rest) (fold_left later rest a) i'.
Proof.
  revert done a i. induction rest as [|c rest IH]; intros done a i H; simpl.
  - rewrite app_nil_r. eauto.
  - destruct (latest_of_step done a c i H) as [i1 H1].
    destruct (IH (done ++ [c]) (later a c) i1 H1) as [i2 H2].
    rewrite <- app_assoc in H2. simpl in H2. eauto.
Qed.

Lemma latest_of_first (x : EarthquakeData) : latest_of [x] x 0.
Proof.
  repeat split.
  - intros e [<-|[]]. apply FloatOrder.ltb_irrefl.
  - intros j e Hj. lia.
Qed.

(** C4. On a non-empty collection the most-recent-event operation returns
    an event of the collection whose time no event exceeds (so it is at
    least every time that is a number), and it is the first event, from
    the left, with that time. *)
Theorem most_recent_is_first_maximal (earthquakes : list EarthquakeData) :
  earthquakes <> [] ->
  exists r i,
    getMostRecentEarthquake earthquakes = JS.Return r
    /\ nth_error earthquakes i = Some r
    /\ (forall e, In e earthquakes -> JS.gt (timeMs e) (timeMs r) = false)
    /\ (forall e, In e earthquakes ->
                  JS.is_nan (timeMs e) = false ->
                  JS.is_nan (timeMs r) = false ->
                  PrimFloat.leb (timeMs e) (timeMs r) = true)
    /\ (forall j e, j < i -> nth_error earthquakes j = Some e ->
                    PrimFloat.eqb (timeMs e) (timeMs r) = false).
Proof.
  destruct earthquakes as [|x rest]; [congruence|]. intros _.
  destruct (latest_of_fold rest [x] x 0 (latest_of_first x))
    as [i (Hnth & Hmax & Hfirst)].
  exists (fold_left later rest x), i. simpl in Hnth, Hmax, Hfirst.
  repeat split; auto.
  intros e He Hne Hnr. apply FloatOrder.ltb_false_leb; auto.
  apply (Hmax e He).
Qed.

(** The sample: the first of the two events at time 300 is returned. *)
Lemma most_recent_is_first_maximal_witness :
  Sample.tied <> []
  /\ exists r i,
       getMostRecentEarthquake Sample.tied = JS.Return r
       /\ nth_error Sample.tied i = Some r
       /\ (forall e, In e Sample.tied -> JS.gt (timeMs e) (timeMs r) = false).
Proof.
  assert (N : Sample.tied <> []) by discriminate.
  split; [exact N|].
  destruct (most_recent_is_first_maximal Sample.tied N)
    as (r & i & H1 & H2 & H3 & _).
  exists r, i. auto.
Defined.

Lemma most_recent_of_tied :
  getMostRecentEarthquake Sample.tied
  = JS.Return (Sample.event "b" 5.1 300)%float.
Proof. vm_compute. reflexivity. Qed.

(** *** Maximum and mean *)

Lemma leb_neg_infinity (m : float) :
  PrimFloat.leb m neg_infinity = true -> m = neg_infinity.
Proof.
  intros H. apply FloatOrder.leb_cmp in H. unfold FloatOrder.cmp in H.
  apply Prim2SF_inj.
  change (Prim2SF neg_infinity) with (S754_infinity true) in *.
  destruct (Prim2SF m) as [s|s| |s mm e]; simpl in H;
    try destruct s; simpl in H; destruct H; try discriminate; reflexivity.
Qed.

Lemma neg_infinity_leb (m : float) :
  JS.is_nan m = false -> PrimFloat.leb neg_infinity m = true.
Proof.
  intros H. apply FloatOrder.is_nan_false in H.
  apply FloatOrder.leb_cmp. unfold FloatOrder.cmp.
  change (Prim2SF neg_infinity) with (S754_infinity true).
  destruct (Prim2SF m) as [s|s| |s mm e]; simpl;
    try destruct s; auto; congruence.
Qed.

(** One step of [Math.max]: the result is one of the two numbers and is
    at least both. *)
Lemma max_step_spec (h n : float) :
  JS.is_nan h = false -> JS.is_nan n = false ->
  let r := JS.max_step h n in
  (r = h \/ r = n)
  /\ PrimFloat.leb h r = true /\ PrimFloat.leb n r = true.
Proof.
  intros Hh Hn. unfold JS.max_step, JS.gt.
  destruct (PrimFloat.Leibniz.eqb n zero
            && PrimFloat.Leibniz.eqb h neg_zero) eqn:Hz.
  - apply andb_true_iff in Hz. destruct Hz as [Hz1 Hz2].
    apply FloatAxioms.Leibniz.eqb_spec in Hz1.
    apply FloatAxioms.Leibniz.eqb_spec in Hz2. subst n h.
    vm_compute. auto.
  - destruct (PrimFloat.ltb h n) eqn:L.
    + repeat split; auto.
      * apply FloatOrder.ltb_leb; exact L.
      * apply FloatOrder.leb_refl; exact Hn.
    + repeat split; auto.
      * apply FloatOrder.leb_refl; exact Hh.
      * apply FloatOrder.ltb_false_leb; auto.
Qed.

Lemma max_loop_spec (values : list float) (h : float) :
  JS.is_nan h = false ->
  Forall (fun m => JS.is_nan m = false) values ->
  let r := JS.max_loop h values in
  (r = h \/ In r values)
  /\ JS.is_nan r = false
  /\ PrimFloat.leb h r = true
  /\ (forall m, In m values -> PrimFloat.leb m r = true).
Proof.
  revert h. induction values as [|n rest IH]; intros h Hh Hall; simpl.
  - repeat split; auto; try (intros m []).
    apply FloatOrder.leb_refl; exact Hh.
  - inversion Hall as [|? ? Hn Hrest]; subst.
    unfold JS.is_nan in Hn |- *. rewrite Hn. fold JS.is_nan.
    destruct (max_step_spec h n Hh Hn) as (Hsel & Hhs & Hns).
    assert (Hs : JS.is_nan (JS.max_step h n) = false)
      by (destruct Hsel as [->| ->]; assumption).
    destruct (IH (JS.max_step h n) Hs Hrest) as (Hin & Hnan & Hle & Hall').
    repeat split.
    + destruct Hin as [->|Hin]; [destruct Hsel as [->| ->]|]; auto.
    + exact Hnan.
    + exact (FloatOrder.leb_trans _ _ _ Hhs Hle).
    + intros m [<-|Hm]; [exact (FloatOrder.leb_trans _ _ _ Hns Hle)|auto].
Qed.

Lemma Math_max_spec (values : list float) :
  values <> [] ->
  Forall (fun m => JS.is_nan m = false) values ->
  In (JS.Math_max values) values
  /\ (forall m, In m values -> PrimFloat.leb m (JS.Math_max values) = true).
Proof.
  intros Hne Hall. unfold JS.Math_max.
  destruct (max_loop_spec values neg_infinity eq_refl Hall)
    as (Hin & _ & _ & Hle).
  split; [|exact Hle].
  destruct Hin as [Heq|Hin]; [|exact Hin].
  destruct values as [|v rest]; [congruence|].
  assert (Hv : v = neg_infinity).
  { apply leb_neg_infinity. rewrite <- Heq. apply Hle. left. reflexivity. }
  rewrite Heq. left. exact Hv.
Qed.

Lemma fold_sum_from (earthquakes : list EarthquakeData) (acc : float) :
  fold_left (fun sum eq => (sum + mag (properties eq))%float) earthquakes acc
  = Spec.sum_from acc (map magnitude earthquakes).
Proof.
  revert acc. induction earthquakes as [|e rest IH]; intros acc; simpl.
  - reflexivity.
  - apply IH.
Qed.

(** C8. On the empty collection the maximum is -Infinity and the mean is
    NaN (0 divided by 0).  On a non-empty collection whose magnitudes are
    numbers the maximum is a magnitude of the collection and no magnitude
    is above it; the mean is the sum of the magnitudes divided by the
    count; for the magnitudes 2.5, 5.1, 1.0 the maximum is 5.1 and the
    mean is within 0.0001 of 2.8667. *)
Theorem aggregates_of_collection :
  getMaxMagnitude [] = neg_infinity
  /\ getAverageMagnitude [] = nan
  /\ (forall earthquakes,
        earthquakes <> [] ->
        Forall (fun e => JS.is_nan (magnitude e) = false) earthquakes ->
        In (getMaxMagnitude earthquakes) (map magnitude earthquakes)
        /\ forall e, In e earthquakes ->
             PrimFloat.leb (magnitude e) (getMaxMagnitude earthquakes) = true)
  /\ (forall earthquakes,
        getAverageMagnitude earthquakes
        = (Spec.sum (map magnitude earthquakes)
           / JS.of_length (List.length earthquakes))%float)
  /\ getMaxMagnitude Sample.events = 5.1%float
  /\ PrimFloat.ltb
       (abs (getAverageMagnitude Sample.events - 2.8667)) 0.0001 = true.
Proof.
  split; [vm_compute; reflexivity|].
  split; [vm_compute; reflexivity|].
  split.
  { intros earthquakes Hne Hall.
    assert (Hne' : map magnitude earthquakes <> [])
      by (destruct earthquakes; [congruence | discriminate]).
    assert (Hall' : Forall (fun m => JS.is_nan m = false)
                           (map magnitude earthquakes))
      by (apply Forall_map; exact Hall).
    destruct (Math_max_spec _ Hne' Hall') as [Hin Hle].
    split; [exact Hin|].
    intros e He. apply Hle. apply in_map. exact He. }
  split.
  { intros earthquakes. unfold getAverageMagnitude, Spec.sum.
    rewrite fold_sum_from. reflexivity. }
  split; vm_compute; reflexivity.
Qed.

(** The worked example meets the side conditions of the maximum. *)
Lemma aggregates_of_collection_witness :
  Sample.events <> []
  /\ Forall (fun e => JS.is_nan (magnitude e) = false) Sample.events
  /\ In (getMaxMagnitude Sample.events) (map magnitude Sample.events).
Proof.
  assert (N : Sample.events <> []) by discriminate.
  assert (F : Forall (fun e => JS.is_nan (magnitude e) = false)
                     Sample.events)
    by (repeat constructor).
  split; [exact N|]. split; [exact F|].
  destruct aggregates_of_collection as (_ & _ & H & _).
  exact (proj1 (H Sample.events N F)).
Defined.

End StatsFacts.

(** ** Arithmetic on numbers that are not NaN

    Rounding a non-negative mantissa never yields NaN, so adding,
    subtracting, multiplying or dividing a number by a finite (non-zero)
    constant yields a number. *)

Module FloatArith.


Section Rounding.
Variables prec emax : Z.

Lemma iter_pos_invariant {A} (P : A -> Prop) (f : A -> A) :
  (forall x, P x -> P (f x)) ->
  forall p x, P x -> P (SpecFloat.iter_pos f p x).
Proof.
  intros Hf. induction p as [p IH|p IH|]; intros x Hx; simpl; auto.
Qed.

Lemma shr_1_nonneg mrs : (0 <= shr_m mrs)%Z -> (0 <= shr_m (shr_1 mrs))%Z.
Proof.
  destruct mrs as [m r s]. simpl.
  destruct m as [|[p|p|]|[p|p|]]; simpl; lia.
Qed.

Lemma shr_nonneg mrs e n :
  (0 <= shr_m mrs)%Z -> (0 <= shr_m (fst (shr mrs e n)))%Z.
Proof.
  intros H. unfold shr. destruct n; simpl; auto.
  apply (iter_pos_invariant (fun r => (0 <= shr_m r)%Z)); auto.
  apply shr_1_nonneg.
Qed.

Lemma shr_fexp_nonneg m e l :
  (0 <= m)%Z -> (0 <= shr_m (fst (shr_fexp prec emax m e l)))%Z.
Proof.
  intros H. unfold shr_fexp. apply shr_nonneg.
  destruct l as [|[]]; simpl; exact H.
Qed.

Lemma round_nearest_even_nonneg m l :
  (0 <= m)%Z -> (0 <= round_nearest_even m l)%Z.
Proof.
  intros H. unfold round_nearest_even.
  destruct l as [|[]]; try destruct (Z.even m); lia.
Qed.

Lemma binary_round_aux_not_nan sx mx ex lx :
  (0 <= mx)%Z -> binary_round_aux prec emax sx mx ex lx <> S754_nan.
Proof.
  intros H. unfold binary_round_aux.
  pose proof (shr_fexp_nonneg mx ex lx H) as H1.
  destruct (shr_fexp prec emax mx ex lx) as [mrs' e']. simpl in H1.
  pose proof (shr_fexp_nonneg _ e' loc_Exact
                (round_nearest_even_nonneg _ (loc_of_shr_record mrs') H1)) as H2.
  destruct (shr_fexp prec emax _ e' loc_Exact) as [mrs'' e'']. simpl in H2.
  destruct (shr_m mrs''); try lia; try discriminate.
  destruct (Z.leb e'' (emax - prec)); discriminate.
Qed.

Lemma binary_normalize_not_nan m e szero :
  binary_normalize prec emax m e szero <> S754_nan.
Proof.
  unfold binary_normalize, binary_round.
  destruct m; try discriminate;
    destruct (shl_align _ _ _); apply binary_round_aux_not_nan; lia.
Qed.

Definition finite (x : spec_float) : bool :=
  match x with
  | S754_zero _ | S754_finite _ _ _ => true
  | _ => false
  end.

Definition nonzero_finite (x : spec_float) : bool :=
  match x with
  | S754_finite _ _ _ => true
  | _ => false
  end.

Lemma SFadd_not_nan x y :
  x <> S754_nan -> finite y = true -> SFadd prec emax x y <> S754_nan.
Proof.
  intros Hx Hy.
  destruct x as [sx|sx| |sx mx ex], y as [sy|sy| |sy my ey];
    try discriminate; try congruence; simpl.
  - destruct sx, sy; discriminate.
  - apply binary_normalize_not_nan.
Qed.

Lemma SFsub_not_nan x y :
  finite x = true -> y <> S754_nan -> SFsub prec emax x y <> S754_nan.
Proof.
  intros Hx Hy.
  destruct x as [sx|sx| |sx mx ex], y as [sy|sy| |sy my ey];
    try discriminate; try congruence; simpl.
  - destruct sx, sy; discriminate.
  - apply binary_normalize_not_nan.
Qed.

Lemma SFmul_not_nan x y :
  x <> S754_nan -> nonzero_finite y = true ->
  SFmul prec emax x y <> S754_nan.
Proof.
  intros Hx Hy.
  destruct x as [sx|sx| |sx mx ex], y as [sy|sy| |sy my ey];
    try discriminate; try congruence; simpl.
  apply binary_round_aux_not_nan. lia.
Qed.

Lemma SFdiv_not_nan x y :
  x <> S754_nan -> nonzero_finite y = true ->
  SFdiv prec emax x y <> S754_nan.
Proof.
  intros Hx Hy.
  destruct x as [sx|sx| |sx mx ex], y as [sy|sy| |sy my ey];
    try discriminate; try congruence; simpl.
  unfold SFdiv_core_binary.
  set (s := (ex - ey - _)%Z).
  set (m' := match s with
             | Z0 => Z.pos mx | Z.pos _ => Z.shiftl (Z.pos mx) s
             | Z.neg _ => 0%Z end).
  assert (Hm : (0 <= m')%Z).
  { unfold m'. destruct s; try lia. apply Z.shiftl_nonneg. lia. }
  pose proof (Z.div_pos m' (Z.pos my) Hm ltac:(lia)) as Hq.
  unfold Z.div in Hq.
  destruct (Z.div_eucl m' (Z.pos my)) as [q r].
  apply binary_round_aux_not_nan. exact Hq.
Qed.

End Rounding.

Import JS.

Lemma add_not_nan (a c : float) :
  is_nan a = false -> finite (Prim2SF c) = true ->
  is_nan (a + c)%float = false.
Proof.
  rewrite !FloatOrder.is_nan_false, add_spec. intros Ha Hc.
  apply SFadd_not_nan; assumption.
Qed.

Lemma sub_not_nan (c a : float) :
  finite (Prim2SF c) = true -> is_nan a = false ->
  is_nan (c - a)%float = false.
Proof.
  rewrite !FloatOrder.is_nan_false, sub_spec. intros Hc Ha.
  apply SFsub_not_nan; assumption.
Qed.

Lemma mul_not_nan (a c : float) :
  is_nan a = false -> nonzero_finite (Prim2SF c) = true ->
  is_nan (a * c)%float = false.
Proof.
  rewrite !FloatOrder.is_nan_false, mul_spec. intros Ha Hc.
  apply SFmul_not_nan; assumption.
Qed.

Lemma div_not_nan (a c : float) :
  is_nan a = false -> nonzero_finite (Prim2SF c) = true ->
  is_nan (a / c)%float = false.
Proof.
  rewrite !FloatOrder.is_nan_false, div_spec. intros Ha Hc.
  apply SFdiv_not_nan; assumption.
Qed.

End FloatArith.

(** ** The projection *)

Module ProjectionFacts.

Import JS EarthquakeMap.
Local Open Scope float_scope.

(** The two coordinates before clamping. *)
Definition raw_x (lng : number) : number := (((lng + 180) / 360) * 100)%float.
Definition raw_y (lat : number) : number := (((90 - lat) / 180) * 100)%float.

Lemma raw_x_not_nan lng : is_nan lng = false -> is_nan (raw_x lng) = false.
Proof.
  intros H. unfold raw_x.
  apply FloatArith.mul_not_nan; [|reflexivity].
  apply FloatArith.div_not_nan; [|reflexivity].
  apply FloatArith.add_not_nan; [exact H|reflexivity].
Qed.

Lemma raw_y_not_nan lat : is_nan lat = false -> is_nan (raw_y lat) = false.
Proof.
  intros H. unfold raw_y.
  apply FloatArith.mul_not_nan; [|reflexivity].
  apply FloatArith.div_not_nan; [|reflexivity].
  apply FloatArith.sub_not_nan; [reflexivity|exact H].
Qed.

(** [Math.max(0, Math.min(100, v))] on a number. *)
Lemma max_min_unfold (v : number) :
  is_nan v = false ->
  Math_max [0%float; Math_min [100%float; v]]
  = (let w := if lt v 100 then v else 100%float in
     if gt w 0 then w else 0%float).
Proof.
  intros Hv. unfold Math_min, Math_max. simpl.
  change (is_nan 100) with false. change (is_nan 0) with false. cbv iota.
  rewrite Hv.
  change (min_step infinity 100) with 100%float.
  change (max_step neg_infinity 0) with 0%float.
  unfold min_step.
  change (PrimFloat.Leibniz.eqb 100 zero) with false.
  rewrite andb_false_r.
  assert (Hw : is_nan (if lt v 100 then v else 100%float) = false)
    by (destruct (lt v 100); [exact Hv | reflexivity]).
  rewrite Hw. unfold max_step.
  change (PrimFloat.Leibniz.eqb 0 neg_zero) with false.
  rewrite andb_false_r. reflexivity.
Qed.

Lemma not_lt_eqb (a b : float) :
  is_nan a = false -> is_nan b = false ->
  PrimFloat.ltb a b = false -> PrimFloat.ltb b a = false ->
  PrimFloat.eqb a b = true.
Proof.
  intros Ha Hb H1 H2. apply FloatOrder.eqb_cmp.
  destruct (FloatOrder.cmp a b) as [[]|] eqn:C; auto.
  - apply FloatOrder.ltb_cmp in C. congruence.
  - assert (C' : FloatOrder.cmp b a = Some Lt)
      by (rewrite (FloatOrder.cmp_antisym a b), C; reflexivity).
    apply FloatOrder.ltb_cmp in C'. congruence.
  - apply FloatOrder.cmp_None in C. destruct C; congruence.
Qed.

Lemma eqb_refl (a : float) : is_nan a = false -> PrimFloat.eqb a a = true.
Proof.
  intros H. apply not_lt_eqb; auto; apply FloatOrder.ltb_irrefl.
Qed.

Lemma clamped_spec (v : number) :
  is_nan v = false ->
  let r := Math_max [0%float; Math_min [100%float; v]] in
  PrimFloat.eqb r (Spec.clamp v 0 100) = true
  /\ PrimFloat.leb 0 r = true /\ PrimFloat.leb r 100 = true.
Proof.
  intros Hv. rewrite (max_min_unfold v Hv). unfold Spec.clamp, lt, gt.
  cbv zeta.
  destruct (PrimFloat.ltb v 100) eqn:H100.
  - destruct (PrimFloat.ltb 0 v) eqn:H0.
    + rewrite (FloatOrder.ltb_asym _ _ H0), (FloatOrder.ltb_asym _ _ H100).
      repeat split.
      * apply eqb_refl; exact Hv.
      * apply FloatOrder.ltb_leb; exact H0.
      * apply FloatOrder.ltb_leb; exact H100.
    + rewrite (FloatOrder.ltb_asym _ _ H100).
      destruct (PrimFloat.ltb v 0) eqn:Hneg; repeat split;
        try reflexivity.
      apply not_lt_eqb; auto.
  - change (PrimFloat.ltb 0 100) with true. cbv iota.
    destruct (PrimFloat.ltb v 0) eqn:Hneg.
    + pose proof (FloatOrder.ltb_trans v 0 100 Hneg eq_refl). congruence.
    + destruct (PrimFloat.ltb 100 v) eqn:Hbig; repeat split;
        try reflexivity.
      apply not_lt_eqb; auto.
Qed.

(** C6. For every latitude and longitude that are numbers, in range or
    not, [x] is [clamp(((lon + 180) / 360) * 100, 0, 100)] and [y] is
    [clamp(((90 - lat) / 180) * 100, 0, 100)], and both lie in [0, 100];
    (90, -180) goes to (0, 0), (-90, 180) to (100, 100) and (0, 0) to
    (50, 50). *)
Theorem projection_is_clamped :
  (forall lat lng,
      is_nan lat = false -> is_nan lng = false ->
      let p := latLngToScreen lat lng in
      PrimFloat.eqb (x p) (Spec.clamp (((lng + 180) / 360) * 100) 0 100) = true
      /\ PrimFloat.eqb (y p) (Spec.clamp (((90 - lat) / 180) * 100) 0 100) = true
      /\ PrimFloat.leb 0 (x p) = true /\ PrimFloat.leb (x p) 100 = true
      /\ PrimFloat.leb 0 (y p) = true /\ PrimFloat.leb (y p) 100 = true)
  /\ latLngToScreen 90 (-180) = {| x := 0; y := 0 |}
  /\ latLngToScreen (-90) 180 = {| x := 100; y := 100 |}
  /\ latLngToScreen 0 0 = {| x := 50; y := 50 |}.
Proof.
  split.
  { intros lat lng Hlat Hlng. unfold latLngToScreen. cbv zeta. simpl x. simpl y.
    destruct (clamped_spec _ (raw_x_not_nan lng Hlng)) as (X1 & X2 & X3).
    destruct (clamped_spec _ (raw_y_not_nan lat Hlat)) as (Y1 & Y2 & Y3).
    unfold raw_x in *. unfold raw_y in *. auto 10. }
  repeat split; vm_compute; reflexivity.
Qed.

(** A longitude far out of range is clamped to the right edge. *)
Lemma projection_is_clamped_witness :
  is_nan 45 = false /\ is_nan 1000 = false
  /\ PrimFloat.leb 0 (x (latLngToScreen 45 1000)) = true
  /\ PrimFloat.leb (x (latLngToScreen 45 1000)) 100 = true.
Proof.
  split; [reflexivity|]. split; [reflexivity|].
  destruct (proj1 projection_is_clamped 45 1000 eq_refl eq_refl)
    as (_ & _ & H1 & H2 & _).
  split; assumption.
Defined.

(** A coordinate that is not a number stays one. *)
Lemma projection_of_nan :
  is_nan (x (latLngToScreen nan nan)) = true
  /\ is_nan (y (latLngToScreen nan nan)) = true.
Proof. split; vm_compute; reflexivity. Qed.

End ProjectionFacts.

(** ** Feed ingestion *)

Module IngestionFacts.

Import Effect.

(** The error the source throws on a response that is not [ok]. *)
Definition http_error (r : Browser.Response) : JS.Error :=
  JS.MkError ("HTTP error! status: " ++ number_to_string (Browser.status r)).

Definition map_events (w : World EarthquakeMap.State) : list EarthquakeData :=
  EarthquakeMap.earthquakes (component w).

Definition index_events (w : World Index.State) : list EarthquakeData :=
  Index.earthquakes (component w).

(** C3. On a response whose status is not a success the [try] block of the
    fetch fails with an error that carries the status, and the stored
    collection is what it was: in the map component, where the error is
    logged and the error notice is set, and in the page. *)
Theorem http_error_keeps_collection
  (r : Browser.Response)
  (w : World EarthquakeMap.State) (wi : World Index.State) :
  Browser.ok r = false ->
  fst (EarthquakeMap.fetch_try (Browser.Resolved r) w)
  = JS.Throw (http_error r)
  /\ map_events (snd (EarthquakeMap.fetch_try (Browser.Resolved r) w))
     = map_events w
  /\ (let w1 := snd (EarthquakeMap.fetchEarthquakes (Browser.Resolved r) w) in
      map_events w1 = map_events w
      /\ Browser.console (browser w1)
         = ("Error fetching earthquake data:", http_error r)
           :: Browser.console (browser w)
      /\ EarthquakeMap.error (component w1)
         = Some "Failed to load earthquake data. Please try again later."
      /\ EarthquakeMap.loading (component w1) = false)
  /\ fst (Index.fetch_try (Browser.Resolved r) wi) = JS.Throw (http_error r)
  /\ (let w1 := snd (Index.fetchEarthquakes (Browser.Resolved r) wi) in
      index_events w1 = index_events wi
      /\ Browser.console (browser w1)
         = ("Error fetching earthquake data:", http_error r)
           :: Browser.console (browser wi)
      /\ Index.loading (component w1) = false).
Proof.
  intros Hok.
  unfold EarthquakeMap.fetchEarthquakes, Index.fetchEarthquakes,
    try_catch_finally, EarthquakeMap.fetch_try, Index.fetch_try,
    bind, fetch, map_events, index_events, http_error.
  simpl. rewrite Hok. simpl. repeat split.
Qed.

Definition internal_server_error : Browser.Response :=
  {| Browser.ok := false; Browser.status := 500;
     Browser.json := JS.Throw (JS.MkError "Unexpected token") |}.

Definition loaded_map : World EarthquakeMap.State :=
  {| component :=
       {| EarthquakeMap.earthquakes := Sample.events;
          EarthquakeMap.loading := false;
          EarthquakeMap.error := None;
          EarthquakeMap.selectedEarthquake := None |};
     browser := Browser.start |}.

Definition loaded_index : World Index.State :=
  {| component :=
       {| Index.earthquakes := Sample.events; Index.loading := false |};
     browser := Browser.start |}.

(** An HTTP 500 on top of a loaded collection. *)
Lemma http_error_keeps_collection_witness :
  Browser.ok internal_server_error = false
  /\ fst (EarthquakeMap.fetch_try (Browser.Resolved internal_server_error)
                                  loaded_map)
     = JS.Throw (JS.MkError "HTTP error! status: 500")
  /\ map_events
       (snd (EarthquakeMap.fetchEarthquakes
               (Browser.Resolved internal_server_error) loaded_map))
     = Sample.events.
Proof.
  split; [reflexivity|].
  destruct (http_error_keeps_collection internal_server_error
              loaded_map loaded_index eq_refl)
    as (H1 & _ & (H2 & _) & _).
  split; [exact H1 | exact H2].
Defined.

(** C7. A successful response whose body has no [features] field stores
    the empty collection and the fetch does not fail: nothing is thrown,
    nothing is logged, and the map's error notice is cleared. *)
Theorem missing_features_gives_empty
  (r : Browser.Response) (body : Browser.EarthquakeResponse)
  (w : World EarthquakeMap.State) (wi : World Index.State) :
  Browser.ok r = true ->
  Browser.json r = JS.Return body ->
  Browser.features body = None ->
  fst (EarthquakeMap.fetch_try (Browser.Resolved r) w) = JS.Return tt
  /\ (let w1 := snd (EarthquakeMap.fetchEarthquakes (Browser.Resolved r) w) in
      fst (EarthquakeMap.fetchEarthquakes (Browser.Resolved r) w)
      = JS.Return tt
      /\ map_events w1 = []
      /\ Browser.console (browser w1) = Browser.console (browser w)
      /\ EarthquakeMap.error (component w1) = None
      /\ EarthquakeMap.loading (component w1) = false)
  /\ fst (Index.fetch_try (Browser.Resolved r) wi) = JS.Return tt
  /\ (let w1 := snd (Index.fetchEarthquakes (Browser.Resolved r) wi) in
      fst (Index.fetchEarthquakes (Browser.Resolved r) wi) = JS.Return tt
      /\ index_events w1 = []
      /\ Browser.console (browser w1) = Browser.console (browser wi)
      /\ Index.loading (component w1) = false).
Proof.
  intros Hok Hjson Hfeat.
  unfold EarthquakeMap.fetchEarthquakes, Index.fetchEarthquakes,
    try_catch_finally, EarthquakeMap.fetch_try, Index.fetch_try,
    bind, fetch, await, map_events, index_events.
  simpl. rewrite Hok, Hjson. simpl. rewrite Hfeat. simpl. repeat split.
Qed.

(** The response whose body is the empty object. *)
Definition empty_object_response : Browser.Response :=
  {| Browser.ok := true; Browser.status := 200;
     Browser.json := JS.Return {| Browser.features := None |} |}.

Lemma missing_features_gives_empty_witness :
  Browser.ok empty_object_response = true
  /\ Browser.json empty_object_response
     = JS.Return {| Browser.features := None |}
  /\ map_events
       (snd (EarthquakeMap.fetchEarthquakes
               (Browser.Resolved empty_object_response) loaded_map))
     = []
  /\ index_events
       (snd (Index.fetchEarthquakes
               (Browser.Resolved empty_object_response) loaded_index))
     = [].
Proof.
  split; [reflexivity|]. split; [reflexivity|].
  destruct (missing_features_gives_empty empty_object_response
              {| Browser.features := None |} loaded_map loaded_index
              eq_refl eq_refl eq_refl)
    as (_ & (_ & H1 & _) & _ & (_ & H2 & _)).
  split; [exact H1 | exact H2].
Defined.

End IngestionFacts.

(** ** The guard of the statistics panel *)

Module GuardFacts.

Lemma stats_on_nonempty (l : list EarthquakeData) :
  l <> [] -> exists view, EarthquakeStats.EarthquakeStats l = JS.Return view.
Proof.
  destruct l as [|e rest]; [congruence|]. intros _.
  unfold EarthquakeStats.EarthquakeStats. simpl. eauto.
Qed.

Lemma guard_nonempty (s : Index.State) :
  (negb (Index.loading s) && (0 <? List.length (Index.earthquakes s))%nat)
  = true ->
  Index.loading s = false /\ Index.earthquakes s <> [].
Proof.
  intros H. apply andb_true_iff in H. destruct H as [H1 H2].
  split.
  - destruct (Index.loading s); [discriminate | reflexivity].
  - destruct (Index.earthquakes s); [discriminate | discriminate].
Qed.

(** C10. The page evaluates the statistics component only on a non-empty
    collection: what the panel renders does not depend on what a component
    does on the empty collection; with the real component, whose
    most-recent-event reduction throws on the empty collection, the panel
    never throws, and when it shows statistics the collection is non-empty
    and loading is over. *)
Theorem stats_component_guarded :
  (forall (V : Type) (c c' : list EarthquakeData -> JS.Outcome V)
          (s : Index.State),
      (forall l, l <> [] -> c l = c' l) ->
      Index.render_panel c s = Index.render_panel c' s)
  /\ (forall s, exists panel, Index.statistics_panel s = JS.Return panel)
  /\ (forall s view,
        Index.statistics_panel s = JS.Return (Index.StatsPanel view) ->
        Index.earthquakes s <> [] /\ Index.loading s = false
        /\ EarthquakeStats.EarthquakeStats (Index.earthquakes s)
           = JS.Return view)
  /\ (exists e, EarthquakeStats.getMostRecentEarthquake [] = JS.Throw e)
  /\ (exists e, EarthquakeStats.EarthquakeStats [] = JS.Throw e).
Proof.
  split.
  { intros V c c' s H. unfold Index.render_panel.
    destruct (negb (Index.loading s)
              && (0 <? List.length (Index.earthquakes s))%nat) eqn:G;
      [|reflexivity].
    destruct (guard_nonempty s G) as [_ Hne]. rewrite (H _ Hne).
    reflexivity. }
  split.
  { intros s. unfold Index.statistics_panel, Index.render_panel.
    destruct (negb (Index.loading s)
              && (0 <? List.length (Index.earthquakes s))%nat) eqn:G;
      [|eauto].
    destruct (guard_nonempty s G) as [_ Hne].
    destruct (stats_on_nonempty _ Hne) as [view ->]. eauto. }
  split.
  { intros s view. unfold Index.statistics_panel, Index.render_panel.
    destruct (negb (Index.loading s)
              && (0 <? List.length (Index.earthquakes s))%nat) eqn:G;
      [|discriminate].
    destruct (guard_nonempty s G) as [Hl Hne].
    destruct (EarthquakeStats.EarthquakeStats (Index.earthquakes s));
      [|discriminate].
    intros H. injection H as ->. auto. }
  split; eexists; reflexivity.
Qed.

(** With the sample collection loaded the panel shows statistics. *)
Lemma stats_component_guarded_witness :
  exists view,
    Index.statistics_panel (Effect.component IngestionFacts.loaded_index)
    = JS.Return (Index.StatsPanel view)
    /\ Index.earthquakes (Effect.component IngestionFacts.loaded_index) <> [].
Proof.
  destruct stats_component_guarded as (_ & Hex & H & _).
  destruct (Hex (Effect.component IngestionFacts.loaded_index))
    as [[view|] Hp].
  - exists view. split; [exact Hp|].
    exact (proj1 (H _ view Hp)).
  - exfalso. vm_compute in Hp. discriminate.
Defined.

End GuardFacts.

(** ** The refresh timer *)

Module TimerFacts.

Import Effect Runtime.
Local Open Scope Z_scope.
Local Arguments Z.mul : simpl never.
Local Arguments Z.add : simpl never.
Local Arguments Z.div : simpl never.

(** The refresh timer as [setInterval] registers it and as it stands
    after it has fired [fired] times. *)
Definition refresh_timer (h : nat) (start : Z) (fired : Z) : Browser.Timer :=
  {| Browser.handle := h;
     Browser.delay := EarthquakeMap.REFRESH_MS;
     Browser.callback := Browser.FetchEarthquakes;
     Browser.due := start + EarthquakeMap.REFRESH_MS * (fired + 1) |}.

(** The requests started so far, most recent first. *)
Definition started (w : World EarthquakeMap.State) : list string :=
  Browser.requests (browser w).

Definition active_timers (w : World EarthquakeMap.State)
  : list Browser.Timer :=
  Browser.timers (browser w).

Definition clock (w : World EarthquakeMap.State) : Z :=
  Browser.now (browser w).

(** A fetch starts one request and touches neither clock nor timers. *)
Lemma fetch_browser (net : Browser.FetchResult)
  (w : World EarthquakeMap.State) :
  let w1 := snd (EarthquakeMap.fetchEarthquakes net w) in
  started w1 = FEED_URL :: started w
  /\ clock w1 = clock w
  /\ active_timers w1 = active_timers w
  /\ Browser.next_handle (browser w1) = Browser.next_handle (browser w).
Proof.
  unfold EarthquakeMap.fetchEarthquakes, try_catch_finally,
    EarthquakeMap.fetch_try, bind, fetch, await, started, clock,
    active_timers.
  destruct net as [e|r]; simpl; [repeat split|].
  destruct (Browser.ok r); simpl; [|repeat split].
  destruct (Browser.json r); simpl; repeat split.
Qed.

(** [n] milliseconds after a mount at time [start] with handle [h]. *)
Definition running (start : Z) (before : list string) (h : nat) (n : Z)
  (w : World EarthquakeMap.State) : Prop :=
  clock w = start + n
  /\ active_timers w = [refresh_timer h start (n / EarthquakeMap.REFRESH_MS)]
  /\ started w
     = repeat FEED_URL (S (Z.to_nat (n / EarthquakeMap.REFRESH_MS))) ++ before.

Lemma mount_running (net : Network) (w : World EarthquakeMap.State) :
  active_timers w = [] ->
  running (clock w) (started w) (Browser.next_handle (browser w)) 0
          (world (mount net w))
  /\ cleanup (mount net w)
     = Some (clearInterval (Browser.next_handle (browser w))).
Proof.
  intros Ht. unfold mount, EarthquakeMap.effect, bind.
  pose proof (fetch_browser (net (Browser.now (browser w))) w) as F.
  destruct (EarthquakeMap.fetchEarthquakes (net (Browser.now (browser w))) w)
    as [[u|e] w1] eqn:E; simpl in F; destruct F as (F1 & F2 & F3 & F4).
  - unfold running, setInterval, ret, clock, active_timers, started in *.
    simpl. rewrite F1, F2, F3, F4, Ht. simpl. repeat split.
    + lia.
  - exfalso. revert E.
    unfold EarthquakeMap.fetchEarthquakes, try_catch_finally,
      EarthquakeMap.fetch_try, bind, fetch, await.
    destruct (net (Browser.now (browser w))) as [e'|r]; simpl;
      [discriminate|].
    destruct (Browser.ok r); simpl; [|discriminate].
    destruct (Browser.json r); simpl; discriminate.
Qed.

Lemma refresh_positive : 0 < EarthquakeMap.REFRESH_MS.
Proof. reflexivity. Qed.

Lemma div_succ_fire (n d : Z) :
  0 < d -> 0 <= n -> d * (n / d + 1) = n + 1 -> (n + 1) / d = n / d + 1.
Proof.
  intros Hd Hn H. rewrite <- H. rewrite Z.mul_comm. apply Z.div_mul. lia.
Qed.

Lemma div_succ_idle (n d : Z) :
  0 < d -> 0 <= n -> d * (n / d + 1) <> n + 1 -> (n + 1) / d = n / d.
Proof.
  intros Hd Hn H.
  pose proof (Z.div_mod n d ltac:(lia)) as E.
  pose proof (Z.mod_pos_bound n d Hd) as B.
  symmetry. apply (Z.div_unique (n + 1) d (n / d) (n mod d + 1)); lia.
Qed.

Lemma tick_running (net : Network) start before h (n : Z)
  (w : World EarthquakeMap.State) :
  0 <= n ->
  running start before h n w -> running start before h (n + 1) (tick net w).
Proof.
  intros Hn (Hc & Ht & Hs). unfold tick, advance_clock, on_browser.
  unfold clock, active_timers, started in *.
  simpl. rewrite Ht. simpl.
  destruct (Z.eqb_spec
              (start + EarthquakeMap.REFRESH_MS
                       * (n / EarthquakeMap.REFRESH_MS + 1))
              (Browser.now (browser w) + 1)) as [Hdue|Hdue].
  - assert (Hq : (n + 1) / EarthquakeMap.REFRESH_MS
                 = n / EarthquakeMap.REFRESH_MS + 1)
      by (apply div_succ_fire; [apply refresh_positive | lia | lia]).
    unfold fire, bind, reschedule, on_browser, run_callback. simpl.
    rewrite Nat.eqb_refl.
    match goal with
    | |- context [EarthquakeMap.fetchEarthquakes ?a ?b] =>
        pose proof (fetch_browser a b) as F;
        destruct (EarthquakeMap.fetchEarthquakes a b) as [o w2]
    end.
    unfold clock, active_timers, started in F. simpl in F.
    destruct F as (F1 & F2 & F3 & _). simpl.
    unfold running, clock, active_timers, started.
    rewrite F1, F2, F3, Hq, Hs, Hc.
    repeat split.
    + lia.
    + unfold refresh_timer. simpl. f_equal. f_equal. lia.
    + assert (Hd : 0 <= n / EarthquakeMap.REFRESH_MS)
        by (apply Z.div_pos; [lia | apply refresh_positive]).
      rewrite Z2Nat.inj_add by lia.
      rewrite Nat.add_1_r. reflexivity.
  - assert (Hq : (n + 1) / EarthquakeMap.REFRESH_MS
                 = n / EarthquakeMap.REFRESH_MS)
      by (apply div_succ_idle; [apply refresh_positive | lia | lia]).
    unfold running, clock, active_timers, started. simpl.
    rewrite Hs, Hq, Hc. repeat split. lia.
Qed.

Lemma run_for_running (net : Network) start before h (k : nat) :
  forall (n : Z) (w : World EarthquakeMap.State),
    0 <= n ->
    running start before h n w ->
    running start before h (n + Z.of_nat k) (run_for net k w).
Proof.
  induction k as [|k IH]; intros n w Hn H.
  - simpl. rewrite Z.add_0_r. exact H.
  - cbn [run_for].
    replace (n + Z.of_nat (S k)) with ((n + 1) + Z.of_nat k) by lia.
    apply IH; [lia|]. apply tick_running; assumption.
Qed.

(** With no timer in the table, time passes and nothing is fetched. *)
Lemma tick_idle (net : Network) (w : World EarthquakeMap.State) :
  active_timers w = [] ->
  active_timers (tick net w) = []
  /\ started (tick net w) = started w
  /\ clock (tick net w) = clock w + 1.
Proof.
  unfold active_timers, started, clock, tick, advance_clock, on_browser.
  intros H. simpl. rewrite H. simpl. auto.
Qed.

Lemma run_for_idle (net : Network) (k : nat) :
  forall w : World EarthquakeMap.State,
    active_timers w = [] ->
    active_timers (run_for net k w) = []
    /\ started (run_for net k w) = started w
    /\ clock (run_for net k w) = clock w + Z.of_nat k.
Proof.
  induction k as [|k IH]; intros w H.
  - simpl. repeat split; auto. lia.
  - cbn [run_for]. destruct (tick_idle net w H) as (T1 & T2 & T3).
    destruct (IH (tick net w) T1) as (R1 & R2 & R3).
    rewrite R2, R3, T2, T3. repeat split; auto. lia.
Qed.

(** The cleanup removes the refresh timer and starts nothing. *)
Lemma unmount_clears (i : Instance) h start fired :
  cleanup i = Some (clearInterval h) ->
  active_timers (world i) = [refresh_timer h start fired] ->
  active_timers (world (unmount i)) = []
  /\ started (world (unmount i)) = started (world i)
  /\ clock (world (unmount i)) = clock (world i).
Proof.
  unfold unmount, active_timers, started, clock. intros -> Ht.
  unfold clearInterval, on_browser. simpl. rewrite Ht. simpl.
  rewrite Nat.eqb_refl. simpl. auto.
Qed.

(** C9. Mounting the map starts one fetch and a timer whose interval is
    five minutes (5 * 60 * 1000 ms).  While the component stays mounted the
    timer is in the table and has started one more fetch for every full
    five minutes that have passed.  Unmounting removes the timer, and from
    then on no fetch is started, however long the page lives. *)
Theorem refresh_timer_lifecycle
  (net : Network) (w : World EarthquakeMap.State) (alive after : nat) :
  active_timers w = [] ->
  let mounted := elapse net alive (mount net w) in
  let gone := elapse net after (unmount mounted) in
  EarthquakeMap.REFRESH_MS = 300000
  /\ (exists h due,
        active_timers (world mounted)
        = [ {| Browser.handle := h;
               Browser.delay := 300000;
               Browser.callback := Browser.FetchEarthquakes;
               Browser.due := due |} ]
        /\ clock (world mounted) < due <= clock (world mounted) + 300000)
  /\ started (world mounted)
     = repeat FEED_URL (1 + Z.to_nat (Z.of_nat alive / 300000)) ++ started w
  /\ active_timers (world gone) = []
  /\ started (world gone) = started (world mounted)
  /\ clock (world gone) = clock w + Z.of_nat alive + Z.of_nat after.
Proof.
  intros Ht mounted gone.
  destruct (mount_running net w Ht) as [Hrun Hclean].
  pose proof (run_for_running net _ _ _ alive 0 _ (Z.le_refl 0) Hrun) as Hr.
  rewrite Z.add_0_l in Hr.
  change (run_for net alive (world (mount net w))) with (world mounted) in Hr.
  destruct Hr as (Hc & Htm & Hst).
  assert (Hcl : cleanup mounted
                = Some (clearInterval (Browser.next_handle (browser w))))
    by exact Hclean.
  destruct (unmount_clears mounted _ _ _ Hcl Htm) as (U1 & U2 & U3).
  destruct (run_for_idle net after (world (unmount mounted)) U1)
    as (G1 & G2 & G3).
  change (run_for net after (world (unmount mounted))) with (world gone)
    in G1, G2, G3.
  change EarthquakeMap.REFRESH_MS with 300000 in *.
  split; [reflexivity|].
  split.
  { eexists _, _. split; [exact Htm|]. cbn [Browser.due refresh_timer].
    change EarthquakeMap.REFRESH_MS with 300000. rewrite Hc.
    pose proof (Z.div_mod (Z.of_nat alive) 300000 ltac:(lia)) as E.
    pose proof (Z.mod_pos_bound (Z.of_nat alive) 300000 ltac:(lia)) as B.
    lia. }
  split; [exact Hst|].
  split; [exact G1|].
  split; [rewrite G2; exact U2|].
  rewrite G3, U3, Hc. lia.
Qed.

(** A page load, and a feed that answers every request with HTTP 500. *)
Definition page_load : World EarthquakeMap.State :=
  {| component := EarthquakeMap.initial_state; browser := Browser.start |}.

Definition feed_down : Network :=
  fun _ => Browser.Resolved IngestionFacts.internal_server_error.

(** Ten minutes mounted: the initial fetch and two refreshes; fifteen more
    minutes after the unmount add none. *)
Lemma refresh_timer_lifecycle_witness :
  active_timers page_load = []
  /\ started (world (elapse feed_down (Z.to_nat 600000)
                             (mount feed_down page_load)))
     = [FEED_URL; FEED_URL; FEED_URL]
  /\ started (world (elapse feed_down (Z.to_nat 900000)
                       (unmount (elapse feed_down (Z.to_nat 600000)
                                        (mount feed_down page_load)))))
     = [FEED_URL; FEED_URL; FEED_URL].
Proof.
  split; [reflexivity|].
  destruct (refresh_timer_lifecycle feed_down page_load
              (Z.to_nat 600000) (Z.to_nat 900000) eq_refl)
    as (_ & _ & H1 & _ & H2 & _).
  rewrite Z2Nat.id in H1 by lia.
  change (started page_load) with (@nil string) in H1.
  change (1 + Z.to_nat (600000 / 300000))%nat with 3%nat in H1.
  cbn [repeat app] in H1.
  split; [exact H1|]. rewrite H2. exact H1.
Defined.

(** The page's own effect starts one fetch and no timer. *)
Lemma index_effect_starts_no_timer (net : Network) (w : World Index.State) :
  Browser.timers (browser (mount_index net w)) = Browser.timers (browser w)
  /\ Browser.requests (browser (mount_index net w))
     = FEED_URL :: Browser.requests (browser w).
Proof.
  unfold mount_index, Index.effect, Index.fetchEarthquakes,
    try_catch_finally, Index.fetch_try, bind, fetch, await.
  destruct (net (Browser.now (browser w))) as [e|r]; simpl; [auto|].
  destruct (Browser.ok r); simpl; [|auto].
  destruct (Browser.json r); simpl; auto.
Qed.

End TimerFacts.

(** * Further properties of the components *)

From Stdlib Require Import Permutation.

(** ** Markers: size, color and label *)

Module MarkerFacts.

Import JS EarthquakeMap.
Local Open Scope float_scope.

Lemma nan_ltb_l (m t : float) : is_nan m = true -> PrimFloat.ltb m t = false.
Proof.
  intros H. destruct (PrimFloat.ltb m t) eqn:L; auto.
  destruct (FloatOrder.ltb_not_nan _ _ L). congruence.
Qed.

Lemma nan_ltb_r (m t : float) : is_nan m = true -> PrimFloat.ltb t m = false.
Proof.
  intros H. destruct (PrimFloat.ltb t m) eqn:L; auto.
  destruct (FloatOrder.ltb_not_nan _ _ L). congruence.
Qed.

Lemma mul_nan (m c : float) : is_nan m = true -> is_nan (m * c)%float = true.
Proof.
  rewrite !FloatOrder.is_nan_cmp, mul_spec. intros ->. reflexivity.
Qed.

Lemma add_nan_l (a b : float) : is_nan a = true -> is_nan (a + b)%float = true.
Proof.
  rewrite !FloatOrder.is_nan_cmp, add_spec. intros ->. reflexivity.
Qed.

Lemma add_nan_r (a b : float) : is_nan b = true -> is_nan (a + b)%float = true.
Proof.
  rewrite !FloatOrder.is_nan_cmp, add_spec. intros ->.
  destruct (Prim2SF a); reflexivity.
Qed.

Lemma div_nan_l (a b : float) : is_nan a = true -> is_nan (a / b)%float = true.
Proof.
  rewrite !FloatOrder.is_nan_cmp, div_spec. intros ->. reflexivity.
Qed.

Lemma is_nan_eq (m : float) : is_nan m = true -> m = nan.
Proof.
  intros H. apply FloatOrder.is_nan_cmp in H. apply Prim2SF_inj.
  rewrite H. reflexivity.
Qed.

(** X1. The size of a marker, for a magnitude that is a number, is the
    larger of 8 and four times the magnitude: it is one of the two and at
    least both. *)
Theorem marker_size_is_larger_of_8_and_4m (m : number) :
  is_nan m = false ->
  (getMagnitudeSize m = 8%float \/ getMagnitudeSize m = (m * 4)%float)
  /\ PrimFloat.leb 8 (getMagnitudeSize m) = true
  /\ PrimFloat.leb (m * 4) (getMagnitudeSize m) = true.
Proof.
  intros Hm. unfold getMagnitudeSize.
  assert (H4 : is_nan (m * 4)%float = false)
    by (apply FloatArith.mul_not_nan; [exact Hm | reflexivity]).
  destruct (StatsFacts.Math_max_spec [8%float; (m * 4)%float])
    as [Hin Hle].
  - discriminate.
  - repeat constructor. exact H4.
  - split.
    + destruct Hin as [<-|[<-|[]]]; auto.
    + split; apply Hle; simpl; auto.
Qed.

(** Magnitude 3 gives 12; magnitude 0.5 gives the minimum, 8. *)
Lemma marker_size_is_larger_of_8_and_4m_witness :
  is_nan 3 = false
  /\ PrimFloat.leb (3 * 4) (getMagnitudeSize 3) = true
  /\ getMagnitudeSize 3 = 12
  /\ getMagnitudeSize 0.5 = 8.
Proof.
  split; [reflexivity|].
  split; [exact (proj2 (proj2 (marker_size_is_larger_of_8_and_4m 3 eq_refl)))|].
  split; vm_compute; reflexivity.
Defined.

(** X2. Whatever the magnitude, the color of its marker is one of the
    colors the legend shows. *)
Theorem marker_color_in_legend (m : number) :
  In (getMagnitudeColor m) (map color legend).
Proof.
  unfold getMagnitudeColor.
  repeat match goal with
         | |- context [if lt m ?t then _ else _] => destruct (lt m t)
         end; simpl; tauto.
Qed.

(** X3. The label of a magnitude has a row in the legend exactly when the
    magnitude is not below 1: the legend does not list "Micro". *)
Theorem label_missing_from_legend_iff (m : number) :
  legend_color (getMagnitudeLabel m) = None <-> lt m 1 = true.
Proof.
  unfold getMagnitudeLabel.
  destruct (lt m 1); [split; reflexivity|].
  repeat match goal with
         | |- context [if lt m ?t then _ else _] => destruct (lt m t)
         end; split; discriminate.
Qed.

(** X4. An event whose magnitude is NaN is labelled "Great", colored as
    great, counted in the [great] bucket, and its marker has no size. *)
Theorem nan_magnitude_is_great (eq : EarthquakeData) :
  is_nan (mag (properties eq)) = true ->
  getMagnitudeLabel (mag (properties eq)) = "Great"%string
  /\ getMagnitudeColor (mag (properties eq))
     = "hsl(var(--magnitude-great))"%string
  /\ (forall stats,
        EarthquakeStats.count_event stats eq
        = EarthquakeStats.incr_great stats)
  /\ is_nan (getMagnitudeSize (mag (properties eq))) = true.
Proof.
  intros H.
  unfold getMagnitudeLabel, getMagnitudeColor, EarthquakeStats.count_event,
    lt.
  cbv zeta. rewrite !(nan_ltb_l _ _ H).
  repeat split.
  unfold getMagnitudeSize, Math_max. simpl.
  change (is_nan 8) with false. cbv iota.
  rewrite (mul_nan _ 4 H). reflexivity.
Qed.

Definition unmeasured : EarthquakeData := Sample.event "n" nan 400.

Lemma nan_magnitude_is_great_witness :
  is_nan (mag (properties unmeasured)) = true
  /\ getMagnitudeLabel (mag (properties unmeasured)) = "Great"%string.
Proof.
  split; [reflexivity|].
  exact (proj1 (nan_magnitude_is_great unmeasured eq_refl)).
Defined.

Lemma max_loop_nan (values : list number) :
  Exists (fun m => is_nan m = true) values ->
  forall h, max_loop h values = nan.
Proof.
  induction 1 as [n rest Hn|n rest Hrest IH]; intros h; simpl.
  - rewrite Hn. reflexivity.
  - destruct (is_nan n); [reflexivity | apply IH].
Qed.

Lemma fold_sum_nan (evs : list EarthquakeData) :
  forall acc,
    is_nan acc = true
    \/ Exists (fun e => is_nan (mag (properties e)) = true) evs ->
    is_nan (fold_left (fun sum eq => sum + mag (properties eq)) evs acc)
    = true.
Proof.
  induction evs as [|e rest IH]; intros acc H; simpl.
  - destruct H as [H|H]; [exact H | inversion H].
  - apply IH. destruct H as [H|H].
    + left. apply add_nan_l. exact H.
    + inversion H as [? ? He|? ? Hr]; subst.
      * left. apply add_nan_r. exact He.
      * right. exact Hr.
Qed.

(** X5. One magnitude that is NaN makes both the maximum and the average
    of the collection NaN. *)
Theorem nan_magnitude_spoils_aggregates (earthquakes : list EarthquakeData) :
  Exists (fun e => is_nan (mag (properties e)) = true) earthquakes ->
  EarthquakeStats.getMaxMagnitude earthquakes = nan
  /\ EarthquakeStats.getAverageMagnitude earthquakes = nan.
Proof.
  intros H. split.
  - unfold EarthquakeStats.getMaxMagnitude, Math_max.
    apply max_loop_nan. apply Exists_exists in H.
    destruct H as (e & He & Hn). apply Exists_exists.
    exists (mag (properties e)). split; [|exact Hn].
    apply (in_map (fun eq => mag (properties eq))). exact He.
  - unfold EarthquakeStats.getAverageMagnitude. cbv zeta.
    apply is_nan_eq. apply div_nan_l. apply fold_sum_nan. right. exact H.
Qed.

Lemma nan_magnitude_spoils_aggregates_witness :
  Exists (fun e => is_nan (mag (properties e)) = true)
         (Sample.events ++ [unmeasured])
  /\ EarthquakeStats.getMaxMagnitude (Sample.events ++ [unmeasured]) = nan.
Proof.
  assert (E : Exists (fun e => is_nan (mag (properties e)) = true)
                     (Sample.events ++ [unmeasured])).
  { apply Exists_app. right. constructor. reflexivity. }
  split; [exact E|].
  exact (proj1 (nan_magnitude_spoils_aggregates _ E)).
Defined.

Lemma below_threshold_mono (p q t : number) :
  PrimFloat.leb p q = true -> lt q t = true -> lt p t = true.
Proof. unfold lt. apply FloatOrder.leb_ltb_trans. Qed.

Ltac chain_cases :=
  repeat match goal with
         | H : context [if lt ?v ?t then _ else _] |- _ =>
             destruct (lt v t) eqn:?
         | |- context [if lt ?v ?t then _ else _] =>
             destruct (lt v t) eqn:?
         end.

Ltac push_below :=
  repeat match goal with
         | Hle : PrimFloat.leb ?p ?q = true, H : lt ?q ?t = true |- _ =>
             lazymatch goal with
             | _ : lt p t = true |- _ => fail
             | _ => pose proof (below_threshold_mono p q t Hle H)
             end
         end.

(** X6. Labels and colors cover intervals: a magnitude between two
    magnitudes that have the same label (the same color) has that label
    (that color) too. *)
Theorem label_and_color_ranges_are_intervals (a m b : number) :
  PrimFloat.leb a m = true -> PrimFloat.leb m b = true ->
  (getMagnitudeLabel a = getMagnitudeLabel b ->
   getMagnitudeLabel m = getMagnitudeLabel a)
  /\ (getMagnitudeColor a = getMagnitudeColor b ->
      getMagnitudeColor m = getMagnitudeColor a).
Proof.
  intros Ham Hmb. split; intros H.
  - unfold getMagnitudeLabel in *. chain_cases;
      try reflexivity; try discriminate H; push_below; congruence.
  - unfold getMagnitudeColor in *. chain_cases;
      try reflexivity; try discriminate H; push_below; congruence.
Qed.

Lemma label_and_color_ranges_are_intervals_witness :
  PrimFloat.leb 2.1 2.5 = true /\ PrimFloat.leb 2.5 2.9 = true
  /\ getMagnitudeLabel 2.5 = getMagnitudeLabel 2.1.
Proof.
  split; [reflexivity|]. split; [reflexivity|].
  exact (proj1 (label_and_color_ranges_are_intervals 2.1 2.5 2.9
                  eq_refl eq_refl) eq_refl).
Defined.

End MarkerFacts.

(** ** Statistics: buckets, order of the feed, the rendered panel *)

Module PanelFacts.

Import JS EarthquakeStats.
Local Open Scope float_scope.

(** How many events have a magnitude that passes a test. *)
Definition count (p : number -> bool) (evs : list EarthquakeData) : nat :=
  List.length (filter (fun e => p (mag (properties e))) evs).

Definition b2n (b : bool) : nat := if b then 1%nat else 0%nat.

Lemma count_cons p e evs :
  count p (e :: evs) = (b2n (p (mag (properties e))) + count p evs)%nat.
Proof.
  unfold count. simpl. destruct (p (mag (properties e))); reflexivity.
Qed.

Ltac absurd_order :=
  match goal with
  | H : true = true -> false = true |- _ => discriminate (H eq_refl)
  end.

Lemma count_event_fields (s : Stats) (e : EarthquakeData) :
  let m := mag (properties e) in
  let s' := count_event s e in
  micro s' = (micro s + b2n (lt m 1))%nat
  /\ minor s' = (minor s + b2n (negb (lt m 1) && lt m 2))%nat
  /\ light s' = (light s + b2n (negb (lt m 2) && lt m 3))%nat
  /\ moderate s' = (moderate s + b2n (negb (lt m 3) && lt m 4))%nat
  /\ strong s' = (strong s + b2n (negb (lt m 4) && lt m 5))%nat
  /\ major s' = (major s + b2n (negb (lt m 5) && lt m 6))%nat
  /\ great s' = (great s + b2n (negb (lt m 6)))%nat.
Proof.
  cbv zeta. unfold count_event. cbv zeta.
  set (m := mag (properties e)).
  pose proof (BandFacts.lt_threshold_mono m 1 2 eq_refl) as M12.
  pose proof (BandFacts.lt_threshold_mono m 2 3 eq_refl) as M23.
  pose proof (BandFacts.lt_threshold_mono m 3 4 eq_refl) as M34.
  pose proof (BandFacts.lt_threshold_mono m 4 5 eq_refl) as M45.
  pose proof (BandFacts.lt_threshold_mono m 5 6 eq_refl) as M56.
  destruct (lt m 1), (lt m 2), (lt m 3), (lt m 4), (lt m 5), (lt m 6);
    try absurd_order; simpl; repeat split; lia.
Qed.

Lemma fold_fields (evs : list EarthquakeData) :
  forall s,
    let s' := fold_left count_event evs s in
    micro s' = (micro s + count (fun m => lt m 1) evs)%nat
    /\ minor s' = (minor s + count (fun m => negb (lt m 1) && lt m 2) evs)%nat
    /\ light s' = (light s + count (fun m => negb (lt m 2) && lt m 3) evs)%nat
    /\ moderate s'
       = (moderate s + count (fun m => negb (lt m 3) && lt m 4) evs)%nat
    /\ strong s' = (strong s + count (fun m => negb (lt m 4) && lt m 5) evs)%nat
    /\ major s' = (major s + count (fun m => negb (lt m 5) && lt m 6) evs)%nat
    /\ great s' = (great s + count (fun m => negb (lt m 6)) evs)%nat.
Proof.
  induction evs as [|e rest IH]; intros s; cbv zeta.
  - unfold count. simpl. repeat split; lia.
  - simpl fold_left. rewrite !count_cons.
    destruct (IH (count_event s e)) as (A1 & A2 & A3 & A4 & A5 & A6 & A7).
    destruct (count_event_fields s e) as (B1 & B2 & B3 & B4 & B5 & B6 & B7).
    rewrite A1, A2, A3, A4, A5, A6, A7, B1, B2, B3, B4, B5, B6, B7.
    repeat split; lia.
Qed.

(** X7. Each bucket of the statistics holds the number of events whose
    magnitude lies in the bucket's range: below 1, from 1 to below 2, ...,
    from 5 to below 6, and not below 6. *)
Theorem buckets_count_their_ranges (earthquakes : list EarthquakeData) :
  let stats := getStatsByMagnitude earthquakes in
  micro stats = count (fun m => lt m 1) earthquakes
  /\ minor stats = count (fun m => negb (lt m 1) && lt m 2) earthquakes
  /\ light stats = count (fun m => negb (lt m 2) && lt m 3) earthquakes
  /\ moderate stats = count (fun m => negb (lt m 3) && lt m 4) earthquakes
  /\ strong stats = count (fun m => negb (lt m 4) && lt m 5) earthquakes
  /\ major stats = count (fun m => negb (lt m 5) && lt m 6) earthquakes
  /\ great stats = count (fun m => negb (lt m 6)) earthquakes.
Proof.
  cbv zeta. unfold getStatsByMagnitude.
  destruct (fold_fields earthquakes stats_init)
    as (A1 & A2 & A3 & A4 & A5 & A6 & A7).
  simpl in *. auto 10.
Qed.

Lemma count_event_comm (s : Stats) (a b : EarthquakeData) :
  count_event (count_event s a) b = count_event (count_event s b) a.
Proof.
  rewrite !BandFacts.count_event_is_incr_band.
  destruct (Spec.classifyMagnitude (mag (properties a))),
           (Spec.classifyMagnitude (mag (properties b))); reflexivity.
Qed.

Lemma fold_count_permutation (evs evs' : list EarthquakeData) :
  Permutation evs evs' ->
  forall s, fold_left count_event evs s = fold_left count_event evs' s.
Proof.
  induction 1 as [|e l l' _ IH|a b l|l1 l2 l3 _ IH1 _ IH2]; intros s; simpl.
  - reflexivity.
  - apply IH.
  - rewrite count_event_comm. reflexivity.
  - rewrite IH1. apply IH2.
Qed.

(** X8. The statistics do not depend on the order in which the feed lists
    the events. *)
Theorem stats_ignore_feed_order (earthquakes reordered : list EarthquakeData) :
  Permutation earthquakes reordered ->
  getStatsByMagnitude earthquakes = getStatsByMagnitude reordered.
Proof.
  intros H. unfold getStatsByMagnitude. apply fold_count_permutation.
  exact H.
Qed.

Lemma stats_ignore_feed_order_witness :
  Permutation Sample.events (rev Sample.events)
  /\ getStatsByMagnitude Sample.events
     = getStatsByMagnitude (rev Sample.events).
Proof.
  assert (P : Permutation Sample.events (rev Sample.events))
    by apply Permutation_rev.
  split; [exact P | exact (stats_ignore_feed_order _ _ P)].
Defined.

Lemma most_recent_facts (evs : list EarthquakeData) (r : EarthquakeData) :
  getMostRecentEarthquake evs = Return r ->
  In r evs
  /\ forall e, In e evs ->
               gt (StatsFacts.timeMs e) (StatsFacts.timeMs r) = false.
Proof.
  destruct evs as [|x rest]; [discriminate|].
  unfold getMostRecentEarthquake, reduce1. intros H. injection H as <-.
  destruct (StatsFacts.latest_of_fold rest [x] x 0
              (StatsFacts.latest_of_first x)) as [i (Hnth & Hmax & _)].
  split; [exact (nth_error_In _ _ Hnth) | exact Hmax].
Qed.

(** X9. When every time is a number, the time of the most recent event
    does not depend on the order in which the feed lists the events. *)
Theorem most_recent_time_ignores_feed_order
  (earthquakes reordered : list EarthquakeData) (r r' : EarthquakeData) :
  Permutation earthquakes reordered ->
  Forall (fun e => is_nan (StatsFacts.timeMs e) = false) earthquakes ->
  getMostRecentEarthquake earthquakes = Return r ->
  getMostRecentEarthquake reordered = Return r' ->
  PrimFloat.eqb (StatsFacts.timeMs r) (StatsFacts.timeMs r') = true.
Proof.
  intros P Hnum H H'.
  destruct (most_recent_facts _ _ H) as [Hin Hmax].
  destruct (most_recent_facts _ _ H') as [Hin' Hmax'].
  assert (Hr' : In r' earthquakes)
    by (apply (Permutation_in _ (Permutation_sym P)); exact Hin').
  assert (Hr : In r reordered) by (apply (Permutation_in _ P); exact Hin).
  rewrite Forall_forall in Hnum.
  apply ProjectionFacts.not_lt_eqb.
  - apply Hnum; exact Hin.
  - apply Hnum; exact Hr'.
  - exact (Hmax r' Hr').
  - exact (Hmax' r Hr).
Qed.

Lemma most_recent_time_ignores_feed_order_witness :
  Permutation Sample.tied (rev Sample.tied)
  /\ PrimFloat.eqb
       (StatsFacts.timeMs (Sample.event "b" 5.1 300))
       (StatsFacts.timeMs (Sample.event "d" 4.0 300)) = true.
Proof.
  assert (P : Permutation Sample.tied (rev Sample.tied))
    by apply Permutation_rev.
  split; [exact P|].
  apply (most_recent_time_ignores_feed_order _ _ _ _ P).
  - repeat constructor.
  - reflexivity.
  - reflexivity.
Defined.

Lemma view_total (earthquakes : list EarthquakeData) (view : View) :
  EarthquakeStats.EarthquakeStats earthquakes = Return view ->
  total_events view = List.length earthquakes.
Proof.
  unfold EarthquakeStats.EarthquakeStats.
  destruct (getMostRecentEarthquake earthquakes); [|discriminate].
  intros H. injection H as <-. reflexivity.
Qed.

(** X10. The figures of a rendered statistics panel agree with each
    other: "Total Events" is the size of the collection, the seven rows of
    the distribution add up to it, and the most recent event is one of
    the collection. *)
Theorem panel_figures_agree
  (earthquakes : list EarthquakeData) (view : View) :
  EarthquakeStats.EarthquakeStats earthquakes = Return view ->
  total_events view = List.length earthquakes
  /\ List.length (rows view) = 7%nat
  /\ list_sum (map row_count (rows view)) = total_events view
  /\ In (mostRecent view) earthquakes.
Proof.
  unfold EarthquakeStats.EarthquakeStats.
  destruct (getMostRecentEarthquake earthquakes) as [r|e] eqn:Hr;
    [|discriminate].
  intros H. injection H as <-. simpl.
  repeat split.
  - pose proof (BandFacts.total_fold earthquakes stats_init) as T.
    unfold BandFacts.total in T. unfold getStatsByMagnitude.
    simpl in T. lia.
  - exact (proj1 (most_recent_facts _ _ Hr)).
Qed.

Lemma panel_figures_agree_witness :
  exists view,
    EarthquakeStats.EarthquakeStats Sample.events = Return view
    /\ list_sum (map row_count (rows view)) = 3%nat.
Proof.
  destruct (GuardFacts.stats_on_nonempty Sample.events) as [view Hv];
    [discriminate|].
  exists view. split; [exact Hv|].
  destruct (panel_figures_agree _ _ Hv) as (H1 & _ & H3 & _).
  rewrite H3, H1. reflexivity.
Defined.

End PanelFacts.

(** ** Fetching and what is shown afterwards *)

Module RefreshFacts.

Import Effect.

(** The feed delivered the collection [l]: a successful response whose
    body parsed, with [l] its [features], or nothing if it has none. *)
Definition delivers (net : Browser.FetchResult) (l : list EarthquakeData)
  : Prop :=
  exists r body,
    net = Browser.Resolved r /\ Browser.ok r = true
    /\ Browser.json r = JS.Return body
    /\ l = match Browser.features body with Some f => f | None => [] end.

(** The request failed with [e] before a response came, or the body of a
    successful response did not parse and [json()] rejected with [e]. *)
Definition breaks (net : Browser.FetchResult) (e : JS.Error) : Prop :=
  net = Browser.Rejected e
  \/ exists r, net = Browser.Resolved r /\ Browser.ok r = true
               /\ Browser.json r = JS.Throw e.

Definition FAILED : string :=
  "Failed to load earthquake data. Please try again later.".

Definition after_map_fetch (net : Browser.FetchResult)
  (w : World EarthquakeMap.State) : World EarthquakeMap.State :=
  snd (EarthquakeMap.fetchEarthquakes net w).

Definition after_index_fetch (net : Browser.FetchResult)
  (w : World Index.State) : World Index.State :=
  snd (Index.fetchEarthquakes net w).

Ltac run_fetch :=
  unfold after_map_fetch, after_index_fetch,
    EarthquakeMap.fetchEarthquakes, Index.fetchEarthquakes,
    try_catch_finally, EarthquakeMap.fetch_try, Index.fetch_try,
    EarthquakeMap.fetch_catch, Index.fetch_catch,
    bind, fetch, await; simpl.

Lemma map_fetch_settles (net : Browser.FetchResult)
  (w : World EarthquakeMap.State) :
  EarthquakeMap.loading (component (after_map_fetch net w)) = false
  /\ EarthquakeMap.selectedEarthquake (component (after_map_fetch net w))
     = EarthquakeMap.selectedEarthquake (component w).
Proof.
  run_fetch.
  destruct net as [e|r]; simpl; [repeat split|].
  destruct (Browser.ok r); simpl; [|repeat split].
  destruct (Browser.json r); simpl; repeat split.
Qed.

Lemma index_fetch_settles (net : Browser.FetchResult)
  (w : World Index.State) :
  Index.loading (component (after_index_fetch net w)) = false.
Proof.
  run_fetch.
  destruct net as [e|r]; simpl; [reflexivity|].
  destruct (Browser.ok r); simpl; [|reflexivity].
  destruct (Browser.json r); reflexivity.
Qed.

(** X11. Whatever the network does, a fetch returns normally: nothing
    escapes the [try], exactly one request is started, [loading] is false
    afterwards, and the selected event, the timers and the clock are left
    alone.  The same holds for the page's fetch. *)
Theorem fetch_always_settles
  (net : Browser.FetchResult)
  (w : World EarthquakeMap.State) (wi : World Index.State) :
  (fst (EarthquakeMap.fetchEarthquakes net w) = JS.Return tt
   /\ EarthquakeMap.loading (component (after_map_fetch net w)) = false
   /\ EarthquakeMap.selectedEarthquake (component (after_map_fetch net w))
      = EarthquakeMap.selectedEarthquake (component w)
   /\ Browser.requests (browser (after_map_fetch net w))
      = FEED_URL :: Browser.requests (browser w)
   /\ Browser.timers (browser (after_map_fetch net w))
      = Browser.timers (browser w)
   /\ Browser.now (browser (after_map_fetch net w)) = Browser.now (browser w))
  /\ (fst (Index.fetchEarthquakes net wi) = JS.Return tt
      /\ Index.loading (component (after_index_fetch net wi)) = false
      /\ Browser.requests (browser (after_index_fetch net wi))
         = FEED_URL :: Browser.requests (browser wi)
      /\ Browser.timers (browser (after_index_fetch net wi))
         = Browser.timers (browser wi)).
Proof.
  run_fetch.
  destruct net as [e|r]; simpl; [repeat split|].
  destruct (Browser.ok r); simpl; [|repeat split].
  destruct (Browser.json r); simpl; repeat split.
Qed.

(** X12. A request that fails before any response, and a successful
    response whose body does not parse, are handled like an HTTP error:
    the collection stays, the error that was thrown is logged, and the map
    sets its notice. *)
Theorem broken_fetch_keeps_collection
  (net : Browser.FetchResult) (e : JS.Error)
  (w : World EarthquakeMap.State) (wi : World Index.State) :
  breaks net e ->
  EarthquakeMap.earthquakes (component (after_map_fetch net w))
  = EarthquakeMap.earthquakes (component w)
  /\ EarthquakeMap.error (component (after_map_fetch net w)) = Some FAILED
  /\ Browser.console (browser (after_map_fetch net w))
     = ("Error fetching earthquake data:", e) :: Browser.console (browser w)
  /\ Index.earthquakes (component (after_index_fetch net wi))
     = Index.earthquakes (component wi)
  /\ Browser.console (browser (after_index_fetch net wi))
     = ("Error fetching earthquake data:", e) :: Browser.console (browser wi).
Proof.
  intros [->|(r & -> & Hok & Hjson)]; run_fetch.
  - repeat split.
  - rewrite Hok, Hjson. simpl. repeat split.
Qed.

Definition offline : Browser.FetchResult :=
  Browser.Rejected (JS.TypeError "Failed to fetch").

Definition not_json : Browser.FetchResult :=
  Browser.Resolved
    {| Browser.ok := true; Browser.status := 200;
       Browser.json := JS.Throw (JS.MkError "Unexpected token <") |}.

Lemma broken_fetch_keeps_collection_witness :
  breaks offline (JS.TypeError "Failed to fetch")
  /\ breaks not_json (JS.MkError "Unexpected token <")
  /\ EarthquakeMap.earthquakes
       (component (after_map_fetch offline IngestionFacts.loaded_map))
     = Sample.events
  /\ EarthquakeMap.earthquakes
       (component (after_map_fetch not_json IngestionFacts.loaded_map))
     = Sample.events.
Proof.
  assert (B1 : breaks offline (JS.TypeError "Failed to fetch"))
    by (left; reflexivity).
  assert (B2 : breaks not_json (JS.MkError "Unexpected token <")).
  { right. eexists. repeat split. }
  split; [exact B1|]. split; [exact B2|].
  split.
  - exact (proj1 (broken_fetch_keeps_collection _ _
                    IngestionFacts.loaded_map IngestionFacts.loaded_index B1)).
  - exact (proj1 (broken_fetch_keeps_collection _ _
                    IngestionFacts.loaded_map IngestionFacts.loaded_index B2)).
Defined.

(** A fetch that fails in any of the three ways. *)
Definition fails (net : Browser.FetchResult) : Prop :=
  (exists e, breaks net e)
  \/ exists r, net = Browser.Resolved r /\ Browser.ok r = false.

Lemma failed_fetch_state (net : Browser.FetchResult)
  (w : World EarthquakeMap.State) :
  fails net ->
  EarthquakeMap.earthquakes (component (after_map_fetch net w))
  = EarthquakeMap.earthquakes (component w)
  /\ EarthquakeMap.error (component (after_map_fetch net w)) = Some FAILED
  /\ EarthquakeMap.loading (component (after_map_fetch net w)) = false
  /\ EarthquakeMap.selectedEarthquake (component (after_map_fetch net w))
     = EarthquakeMap.selectedEarthquake (component w).
Proof.
  intros [[e [->|(r & -> & Hok & Hjson)]]|(r & -> & Hok)]; run_fetch.
  - repeat split.
  - rewrite Hok, Hjson. simpl. repeat split.
  - rewrite Hok. simpl. repeat split.
Qed.

Lemma delivered_fetch_state (net : Browser.FetchResult)
  (l : list EarthquakeData) (w : World EarthquakeMap.State) :
  delivers net l ->
  EarthquakeMap.earthquakes (component (after_map_fetch net w)) = l
  /\ EarthquakeMap.error (component (after_map_fetch net w)) = None
  /\ EarthquakeMap.loading (component (after_map_fetch net w)) = false
  /\ EarthquakeMap.selectedEarthquake (component (after_map_fetch net w))
     = EarthquakeMap.selectedEarthquake (component w)
  /\ Browser.console (browser (after_map_fetch net w))
     = Browser.console (browser w).
Proof.
  intros (r & body & -> & Hok & Hjson & ->). run_fetch.
  rewrite Hok, Hjson. simpl. repeat split.
Qed.

(** X13. A delivered collection replaces the stored one whole, whatever
    was stored and whatever notice was set, and the map then shows one
    marker per delivered event, in the feed's order, with the card of the
    event that was selected before. *)
Theorem delivered_collection_is_shown
  (net : Browser.FetchResult) (l : list EarthquakeData)
  (w : World EarthquakeMap.State) :
  delivers net l ->
  EarthquakeMap.earthquakes (component (after_map_fetch net w)) = l
  /\ MapRender.render (component (after_map_fetch net w))
     = MapRender.Map
         (map MapRender.marker l) EarthquakeMap.legend
         (option_map MapRender.details
            (EarthquakeMap.selectedEarthquake (component w))).
Proof.
  intros H. destruct (delivered_fetch_state net l w H)
    as (He & Herr & Hl & Hsel & _).
  split; [exact He|]. unfold MapRender.render.
  rewrite Hl, Herr, He, Hsel. reflexivity.
Qed.

Definition feed (l : list EarthquakeData) : Browser.FetchResult :=
  Browser.Resolved
    {| Browser.ok := true; Browser.status := 200;
       Browser.json := JS.Return {| Browser.features := Some l |} |}.

Lemma feed_delivers (l : list EarthquakeData) : delivers (feed l) l.
Proof. eexists _, _. repeat split. Qed.

Lemma delivered_collection_is_shown_witness :
  delivers (feed Sample.tied) Sample.tied
  /\ EarthquakeMap.earthquakes
       (component (after_map_fetch (feed Sample.tied)
                     IngestionFacts.loaded_map))
     = Sample.tied.
Proof.
  split; [apply feed_delivers|].
  exact (proj1 (delivered_collection_is_shown _ _
                  IngestionFacts.loaded_map (feed_delivers Sample.tied))).
Defined.

(** X14. After a refresh that fails, the map shows the error card, not the
    markers, although the collection delivered before is still stored; the
    next refresh that delivers brings the markers back. *)
Theorem failed_refresh_hides_markers
  (first failing next : Browser.FetchResult)
  (l l' : list EarthquakeData) (w : World EarthquakeMap.State) :
  delivers first l -> fails failing -> delivers next l' ->
  let loaded := after_map_fetch first w in
  let failed := after_map_fetch failing loaded in
  let recovered := after_map_fetch next failed in
  EarthquakeMap.earthquakes (component failed) = l
  /\ MapRender.render (component failed) = MapRender.ErrorCard FAILED
  /\ MapRender.render (component recovered)
     = MapRender.Map
         (map MapRender.marker l') EarthquakeMap.legend
         (option_map MapRender.details
            (EarthquakeMap.selectedEarthquake (component w))).
Proof.
  intros H1 H2 H3 loaded failed recovered.
  destruct (delivered_fetch_state first l w H1) as (A1 & _ & _ & A4 & _).
  destruct (failed_fetch_state failing loaded H2) as (B1 & B2 & B3 & B4).
  fold failed in B1, B2, B3, B4. fold loaded in A1, A4.
  destruct (delivered_fetch_state next l' failed H3)
    as (C1 & C2 & C3 & C4 & _).
  fold recovered in C1, C2, C3, C4.
  split; [rewrite B1; exact A1|].
  split.
  - unfold MapRender.render. rewrite B3, B2. reflexivity.
  - unfold MapRender.render. rewrite C3, C2, C1, C4, B4, A4. reflexivity.
Qed.

Lemma failed_refresh_hides_markers_witness :
  delivers (feed Sample.events) Sample.events
  /\ fails offline
  /\ delivers (feed Sample.tied) Sample.tied
  /\ MapRender.render
       (component
          (after_map_fetch offline
             (after_map_fetch (feed Sample.events)
                              TimerFacts.page_load)))
     = MapRender.ErrorCard FAILED.
Proof.
  assert (F : fails offline) by (left; eexists; left; reflexivity).
  split; [apply feed_delivers|]. split; [exact F|].
  split; [apply feed_delivers|].
  exact (proj1 (proj2 (failed_refresh_hides_markers _ _ _ _ _
                         TimerFacts.page_load
                         (feed_delivers Sample.events) F
                         (feed_delivers Sample.tied)))).
Defined.

Lemma index_fetch_state (net : Browser.FetchResult)
  (w : World Index.State) :
  Index.loading (component (after_index_fetch net w)) = false
  /\ (forall l, delivers net l ->
                Index.earthquakes (component (after_index_fetch net w)) = l)
  /\ (fails net ->
      Index.earthquakes (component (after_index_fetch net w))
      = Index.earthquakes (component w)).
Proof.
  split; [apply index_fetch_settles|].
  split.
  - intros l (r & body & -> & Hok & Hjson & ->). run_fetch.
    rewrite Hok, Hjson. reflexivity.
  - intros [[e [->|(r & -> & Hok & Hjson)]]|(r & -> & Hok)]; run_fetch.
    + reflexivity.
    + rewrite Hok, Hjson. reflexivity.
    + rewrite Hok. reflexivity.
Qed.

Lemma panel_of_loaded (s : Index.State) :
  Index.loading s = false ->
  (Index.earthquakes s = [] ->
   Index.statistics_panel s = JS.Return Index.LoadingStatistics)
  /\ (Index.earthquakes s <> [] ->
      exists view,
        Index.statistics_panel s = JS.Return (Index.StatsPanel view)
        /\ EarthquakeStats.total_events view
           = List.length (Index.earthquakes s)).
Proof.
  intros Hl. unfold Index.statistics_panel, Index.render_panel.
  rewrite Hl. split.
  - intros ->. reflexivity.
  - intros Hne. destruct (Index.earthquakes s) as [|e rest] eqn:E;
      [congruence|].
    destruct (GuardFacts.stats_on_nonempty (e :: rest)) as [view Hv];
      [discriminate|].
    exists view. rewrite Hv. split; [reflexivity|].
    exact (PanelFacts.view_total _ _ Hv).
Qed.

(** X15. The page has no error notice.  After its fetch the statistics
    panel shows the figures of the delivered collection when that is not
    empty; when the feed delivers no event, or the first fetch fails, it
    shows the "Loading Statistics" placeholder although loading is over. *)
Theorem statistics_need_a_delivered_event
  (net : Browser.FetchResult) (w : World Index.State) :
  let s := component (after_index_fetch net w) in
  Index.loading s = false
  /\ (forall l, delivers net l -> l <> [] ->
       exists view,
         Index.statistics_panel s = JS.Return (Index.StatsPanel view)
         /\ EarthquakeStats.total_events view = List.length l)
  /\ (delivers net [] ->
      Index.statistics_panel s = JS.Return Index.LoadingStatistics)
  /\ (fails net -> Index.earthquakes (component w) = [] ->
      Index.statistics_panel s = JS.Return Index.LoadingStatistics).
Proof.
  cbv zeta. destruct (index_fetch_state net w) as (Hl & Hd & Hf).
  destruct (panel_of_loaded _ Hl) as [Hempty Hfull].
  split; [exact Hl|]. split; [|split].
  - intros l H Hne. rewrite <- (Hd l H) in Hne |- *. exact (Hfull Hne).
  - intros H. apply Hempty. exact (Hd [] H).
  - intros H E. apply Hempty. rewrite (Hf H). exact E.
Qed.

Definition index_page_load : World Index.State :=
  {| component := Index.initial_state; browser := Browser.start |}.

Lemma statistics_need_a_delivered_event_witness :
  fails offline
  /\ Index.statistics_panel
       (component (after_index_fetch offline index_page_load))
     = JS.Return Index.LoadingStatistics
  /\ Index.loading (component (after_index_fetch offline index_page_load))
     = false.
Proof.
  assert (F : fails offline) by (left; eexists; left; reflexivity).
  destruct (statistics_need_a_delivered_event offline index_page_load)
    as (H1 & _ & _ & H4).
  split; [exact F|]. split; [exact (H4 F eq_refl) | exact H1].
Defined.

(** The coordinates of an event are numbers. *)
Definition located (e : EarthquakeData) : Prop :=
  let '(lng, lat, _) := coordinates (geometry e) in
  JS.is_nan lng = false /\ JS.is_nan lat = false.

Definition inside (v : JS.number) : Prop :=
  PrimFloat.leb 0 v = true /\ PrimFloat.leb v 100 = true.

Lemma marker_inside (e : EarthquakeData) :
  located e ->
  inside (MapRender.left (MapRender.marker e))
  /\ inside (MapRender.top (MapRender.marker e)).
Proof.
  unfold located, MapRender.marker, inside.
  destruct (coordinates (geometry e)) as [[lng lat] d]. intros [Hlng Hlat].
  simpl.
  destruct (ProjectionFacts.clamped_spec _
              (ProjectionFacts.raw_x_not_nan lng Hlng)) as (_ & X2 & X3).
  destruct (ProjectionFacts.clamped_spec _
              (ProjectionFacts.raw_y_not_nan lat Hlat)) as (_ & Y2 & Y3).
  unfold ProjectionFacts.raw_x in *. unfold ProjectionFacts.raw_y in *.
  auto.
Qed.

(** X16. When the map is shown, there is one marker per stored event, in
    the same order and keyed by the event's id; every marker is a square,
    clicking it selects its own event, and when the coordinates of the
    events are numbers every marker lies inside the viewport. *)
Theorem markers_follow_the_collection
  (s : EarthquakeMap.State) (markers : list MapRender.Marker)
  (rows : list EarthquakeMap.LegendRow) (card : option MapRender.Details) :
  MapRender.render s = MapRender.Map markers rows card ->
  map MapRender.key markers = map id (EarthquakeMap.earthquakes s)
  /\ map MapRender.onClick markers = EarthquakeMap.earthquakes s
  /\ Forall (fun mk => MapRender.width mk = MapRender.height mk) markers
  /\ (Forall located (EarthquakeMap.earthquakes s) ->
      Forall (fun mk => inside (MapRender.left mk)
                        /\ inside (MapRender.top mk)) markers).
Proof.
  unfold MapRender.render.
  destruct (EarthquakeMap.loading s); [discriminate|].
  destruct (MapRender.truthy (EarthquakeMap.error s)); [discriminate|].
  intros H. injection H as <- _ _.
  generalize (EarthquakeMap.earthquakes s) as evs.
  intros evs. repeat split.
  - rewrite map_map. apply map_ext. intros e. unfold MapRender.marker.
    destruct (coordinates (geometry e)) as [[? ?] ?]. reflexivity.
  - rewrite map_map. rewrite <- (map_id evs) at 2. apply map_ext.
    intros e. unfold MapRender.marker.
    destruct (coordinates (geometry e)) as [[? ?] ?]. reflexivity.
  - apply Forall_map. apply Forall_forall. intros e _.
    unfold MapRender.marker.
    destruct (coordinates (geometry e)) as [[? ?] ?]. reflexivity.
  - intros Hloc. apply Forall_map. revert Hloc. apply Forall_impl.
    intros e. apply marker_inside.
Qed.

Definition shown : EarthquakeMap.State :=
  {| EarthquakeMap.earthquakes := Sample.events;
     EarthquakeMap.loading := false;
     EarthquakeMap.error := None;
     EarthquakeMap.selectedEarthquake := None |}.

Lemma markers_follow_the_collection_witness :
  MapRender.render shown
  = MapRender.Map (map MapRender.marker Sample.events) EarthquakeMap.legend
                  None
  /\ Forall located Sample.events
  /\ map MapRender.key (map MapRender.marker Sample.events)
     = ["a"; "b"; "c"].
Proof.
  assert (R : MapRender.render shown
              = MapRender.Map (map MapRender.marker Sample.events)
                              EarthquakeMap.legend None)
    by reflexivity.
  split; [exact R|]. split.
  - repeat constructor.
  - exact (proj1 (markers_follow_the_collection _ _ _ _ R)).
Defined.

(** X17. A click on a marker selects its event.  The selection outlives
    any fetch: when the next collection is delivered the card of that
    event is still shown, whether or not the collection lists it, until
    the card is closed. *)
Theorem selection_outlives_refresh
  (e : EarthquakeData) (net : Browser.FetchResult)
  (w : World EarthquakeMap.State) :
  let clicked := snd (MapRender.click (MapRender.marker e) w) in
  let refreshed := after_map_fetch net clicked in
  EarthquakeMap.selectedEarthquake (component refreshed) = Some e
  /\ (forall l, delivers net l ->
       MapRender.render (component refreshed)
       = MapRender.Map (map MapRender.marker l) EarthquakeMap.legend
                       (Some (MapRender.details e)))
  /\ EarthquakeMap.selectedEarthquake
       (component (snd (MapRender.close refreshed))) = None
  /\ EarthquakeMap.earthquakes (component (snd (MapRender.close refreshed)))
     = EarthquakeMap.earthquakes (component refreshed).
Proof.
  cbv zeta.
  assert (Hc : EarthquakeMap.selectedEarthquake
                 (component (snd (MapRender.click (MapRender.marker e) w)))
               = Some e).
  { unfold MapRender.click, MapRender.marker.
    destruct (coordinates (geometry e)) as [[? ?] ?]. reflexivity. }
  destruct (map_fetch_settles net
              (snd (MapRender.click (MapRender.marker e) w))) as [_ Hsel].
  split; [rewrite Hsel; exact Hc|].
  split; [|split; reflexivity].
  intros l H.
  destruct (delivered_fetch_state net l
              (snd (MapRender.click (MapRender.marker e) w)) H)
    as (D1 & D2 & D3 & D4 & _).
  unfold MapRender.render. rewrite D3, D2, D1, D4, Hc. reflexivity.
Qed.

(** An event that the next collection does not list stays on its card. *)
Lemma selection_outlives_refresh_witness :
  delivers (feed Sample.events) Sample.events
  /\ ~ In (Sample.event "d" 4.0 300)%float Sample.events
  /\ MapRender.render
       (component
          (after_map_fetch (feed Sample.events)
             (snd (MapRender.click
                     (MapRender.marker (Sample.event "d" 4.0 300)%float)
                     IngestionFacts.loaded_map))))
     = MapRender.Map (map MapRender.marker Sample.events)
                     EarthquakeMap.legend
                     (Some (MapRender.details
                              (Sample.event "d" 4.0 300)%float)).
Proof.
  split; [apply feed_delivers|]. split.
  - simpl. intros [H|[H|[H|[]]]]; discriminate H.
  - exact (proj1 (proj2 (selection_outlives_refresh
                           (Sample.event "d" 4.0 300)%float
                           (feed Sample.events) IngestionFacts.loaded_map))
                 Sample.events (feed_delivers Sample.events)).
Defined.

End RefreshFacts.

(** ** Timers of other components *)

Module CleanupFacts.

Import Effect Runtime.
Local Open Scope Z_scope.
Local Arguments Z.mul : simpl never.
Local Arguments Z.add : simpl never.

(** What identifies a timer; its due time moves each time it fires. *)
Definition identity (t : Browser.Timer) : nat * Z * Browser.Callback :=
  (Browser.handle t, Browser.delay t, Browser.callback t).

Definition scheduled {C} (w : World C) : list (nat * Z * Browser.Callback) :=
  map identity (Browser.timers (browser w)).

(** Handles in the table were all handed out already. *)
Definition handles_fresh {C} (w : World C) : Prop :=
  Forall (fun t => (Browser.handle t < Browser.next_handle (browser w))%nat)
         (Browser.timers (browser w)).

Lemma fire_scheduled (net : Network) (t : Browser.Timer)
  (w : World EarthquakeMap.State) :
  scheduled (snd (fire net t w)) = scheduled w
  /\ Browser.next_handle (browser (snd (fire net t w)))
     = Browser.next_handle (browser w).
Proof.
  unfold fire, bind, reschedule, on_browser, run_callback. simpl.
  destruct (Browser.callback t).
  match goal with
  | |- context [EarthquakeMap.fetchEarthquakes ?a ?b] =>
      pose proof (TimerFacts.fetch_browser a b) as F;
      destruct (EarthquakeMap.fetchEarthquakes a b) as [o w2]
  end.
  unfold TimerFacts.active_timers in F. simpl in F.
  destruct F as (_ & _ & F3 & F4). unfold scheduled. simpl.
  rewrite F3, F4. split; [|reflexivity].
  rewrite map_map. apply map_ext. intros t'.
  destruct (Nat.eqb (Browser.handle t') (Browser.handle t)); reflexivity.
Qed.

Lemma fold_fire_scheduled (net : Network) (now : Z)
  (snapshot : list Browser.Timer) :
  forall w : World EarthquakeMap.State,
    let w' :=
      fold_left
        (fun w t => if Browser.due t =? now then snd (fire net t w) else w)
        snapshot w in
    scheduled w' = scheduled w
    /\ Browser.next_handle (browser w') = Browser.next_handle (browser w).
Proof.
  induction snapshot as [|t rest IH]; intros w; simpl.
  - auto.
  - destruct (Browser.due t =? now).
    + destruct (IH (snd (fire net t w))) as [A B].
      destruct (fire_scheduled net t w) as [C D].
      rewrite A, B. auto.
    + apply IH.
Qed.

Lemma tick_scheduled (net : Network) (w : World EarthquakeMap.State) :
  scheduled (tick net w) = scheduled w
  /\ Browser.next_handle (browser (tick net w))
     = Browser.next_handle (browser w).
Proof.
  unfold tick.
  destruct (fold_fire_scheduled net
              (Browser.now (browser (snd (advance_clock w))))
              (Browser.timers (browser (snd (advance_clock w))))
              (snd (advance_clock w))) as [A B].
  rewrite A, B. auto.
Qed.

Lemma run_for_scheduled (net : Network) (ms : nat) :
  forall w : World EarthquakeMap.State,
    scheduled (run_for net ms w) = scheduled w
    /\ Browser.next_handle (browser (run_for net ms w))
       = Browser.next_handle (browser w).
Proof.
  induction ms as [|ms IH]; intros w; simpl; [auto|].
  destruct (IH (tick net w)) as [A B].
  destruct (tick_scheduled net w) as [C D].
  rewrite A, B. auto.
Qed.

Lemma mount_scheduled (net : Network) (w : World EarthquakeMap.State) :
  scheduled (world (mount net w))
  = scheduled w
    ++ [(Browser.next_handle (browser w), EarthquakeMap.REFRESH_MS,
         Browser.FetchEarthquakes)]
  /\ cleanup (mount net w)
     = Some (clearInterval (Browser.next_handle (browser w))).
Proof.
  unfold mount, EarthquakeMap.effect, bind.
  pose proof (TimerFacts.fetch_browser (net (Browser.now (browser w))) w)
    as F.
  destruct (EarthquakeMap.fetchEarthquakes (net (Browser.now (browser w))) w)
    as [[u|e] w1] eqn:E; simpl in F; destruct F as (_ & _ & F3 & F4).
  - unfold TimerFacts.active_timers in F3.
    unfold scheduled, setInterval, ret. simpl.
    rewrite F3, F4, map_app. auto.
  - exfalso. revert E.
    unfold EarthquakeMap.fetchEarthquakes, try_catch_finally,
      EarthquakeMap.fetch_try, bind, fetch, await.
    destruct (net (Browser.now (browser w))) as [e'|r]; simpl;
      [discriminate|].
    destruct (Browser.ok r); simpl; [|discriminate].
    destruct (Browser.json r); simpl; discriminate.
Qed.

Lemma filter_identity (h : nat) (l : list Browser.Timer) :
  map identity
      (filter (fun t => negb (Nat.eqb (Browser.handle t) h)) l)
  = filter (fun i => negb (Nat.eqb (fst (fst i)) h)) (map identity l).
Proof.
  induction l as [|t l IH]; simpl; [reflexivity|].
  destruct (Nat.eqb (Browser.handle t) h); simpl; rewrite IH; reflexivity.
Qed.

Lemma filter_older (h : nat) (ids : list (nat * Z * Browser.Callback)) :
  Forall (fun i => (fst (fst i) < h)%nat) ids ->
  filter (fun i => negb (Nat.eqb (fst (fst i)) h)) ids = ids.
Proof.
  induction 1 as [|i ids Hi _ IH]; simpl; [reflexivity|].
  destruct (Nat.eqb_spec (fst (fst i)) h); [lia|]. simpl. rewrite IH.
  reflexivity.
Qed.

(** X18. The cleanup removes the timer its own effect started and no
    other: with any timers already scheduled (under handles handed out
    earlier), after the component was mounted, lived for any time and was
    unmounted, the scheduled timers are the ones from before. *)
Theorem cleanup_removes_only_its_timer
  (net : Network) (w : World EarthquakeMap.State) (alive : nat) :
  handles_fresh w ->
  scheduled (world (unmount (elapse net alive (mount net w)))) = scheduled w.
Proof.
  intros Hfresh.
  destruct (mount_scheduled net w) as [Hm Hc].
  destruct (run_for_scheduled net alive (world (mount net w))) as [Hr _].
  unfold unmount, elapse. simpl. rewrite Hc.
  unfold clearInterval, on_browser, scheduled in *. simpl.
  rewrite filter_identity, Hr, Hm, filter_app. simpl.
  rewrite Nat.eqb_refl. simpl. rewrite app_nil_r.
  apply filter_older. apply Forall_map.
  revert Hfresh. unfold handles_fresh. apply Forall_impl. intros t H. exact H.
Qed.

(** A page on which another timer is already running. *)
Definition busy_page : World EarthquakeMap.State :=
  {| component := EarthquakeMap.initial_state;
     browser :=
       {| Browser.console := []; Browser.requests := []; Browser.now := 0;
          Browser.timers :=
            [ {| Browser.handle := 1; Browser.delay := 1000;
                 Browser.callback := Browser.FetchEarthquakes;
                 Browser.due := 1000 |} ];
          Browser.next_handle := 2 |} |}.

Lemma cleanup_removes_only_its_timer_witness :
  handles_fresh busy_page
  /\ scheduled (world (unmount (elapse TimerFacts.feed_down (Z.to_nat 600000)
                                       (mount TimerFacts.feed_down busy_page))))
     = [(1%nat, 1000, Browser.FetchEarthquakes)].
Proof.
  assert (F : handles_fresh busy_page) by (repeat constructor).
  split; [exact F|].
  exact (cleanup_removes_only_its_timer TimerFacts.feed_down busy_page
           (Z.to_nat 600000) F).
Defined.

End CleanupFacts.

(** ** The page: statistics beside a map that refreshes *)

Module PageFacts.

Import Effect.
Local Open Scope Z_scope.
Local Arguments Z.mul : simpl never.
Local Arguments Z.add : simpl never.
Local Arguments Z.div : simpl never.
Local Arguments Z.to_nat : simpl never.

(** The map's share of the page. *)
Definition map_world (w : World Page.State) : World EarthquakeMap.State :=
  {| component := Page.earthquake_map (component w); browser := browser w |}.

Definition statistics_state (w : World Page.State) : Index.State :=
  Page.index (component w).

Lemma fire_map_world (net : Page.Network) (t : Browser.Timer)
  (w : World Page.State) :
  map_world (snd (Page.fire net t w))
  = snd (Runtime.fire (net Page.ByMap) t (map_world w))
  /\ statistics_state (snd (Page.fire net t w)) = statistics_state w.
Proof.
  unfold Page.fire, Runtime.fire, bind, Runtime.reschedule, on_browser,
    Page.run_callback, Runtime.run_callback, Page.in_map, map_world,
    statistics_state.
  simpl. destruct (Browser.callback t).
  match goal with
  | |- context [EarthquakeMap.fetchEarthquakes ?a ?b] =>
      destruct (EarthquakeMap.fetchEarthquakes a b) as [o [c b']]
  end.
  simpl. auto.
Qed.

Lemma fold_fire_map_world (net : Page.Network) (now : Z)
  (snapshot : list Browser.Timer) :
  forall w : World Page.State,
    map_world
      (fold_left
         (fun w t =>
            if Browser.due t =? now then snd (Page.fire net t w) else w)
         snapshot w)
    = fold_left
        (fun w t =>
           if Browser.due t =? now
           then snd (Runtime.fire (net Page.ByMap) t w) else w)
        snapshot (map_world w)
    /\ statistics_state
         (fold_left
            (fun w t =>
               if Browser.due t =? now then snd (Page.fire net t w) else w)
            snapshot w)
       = statistics_state w.
Proof.
  induction snapshot as [|t rest IH]; intros w; simpl; [auto|].
  destruct (Browser.due t =? now); [|apply IH].
  destruct (IH (snd (Page.fire net t w))) as [A B].
  destruct (fire_map_world net t w) as [C D].
  rewrite A, B, C, D. auto.
Qed.

Lemma tick_map_world (net : Page.Network) (w : World Page.State) :
  map_world (Page.tick net w) = Runtime.tick (net Page.ByMap) (map_world w)
  /\ statistics_state (Page.tick net w) = statistics_state w.
Proof.
  unfold Page.tick, Runtime.tick.
  apply (fold_fire_map_world net
           (Browser.now (browser (snd (Runtime.advance_clock w))))
           (Browser.timers (browser (snd (Runtime.advance_clock w))))
           (snd (Runtime.advance_clock w))).
Qed.

Lemma run_for_map_world (net : Page.Network) (ms : nat) :
  forall w : World Page.State,
    map_world (Page.run_for net ms w)
    = Runtime.run_for (net Page.ByMap) ms (map_world w)
    /\ statistics_state (Page.run_for net ms w) = statistics_state w.
Proof.
  induction ms as [|ms IH]; intros w; simpl; [auto|].
  destruct (IH (Page.tick net w)) as [A B].
  destruct (tick_map_world net w) as [C D].
  rewrite A, B, C, D. auto.
Qed.

(** The page's own effect, seen from the map: one more request. *)
Lemma index_effect_map_world (answer : Browser.FetchResult)
  (w : World Page.State) :
  let w' := snd (Page.in_index (Index.effect answer) w) in
  component (map_world w') = component (map_world w)
  /\ Browser.requests (browser w') = FEED_URL :: Browser.requests (browser w)
  /\ Browser.now (browser w') = Browser.now (browser w)
  /\ Browser.timers (browser w') = Browser.timers (browser w)
  /\ statistics_state w'
     = component
         (RefreshFacts.after_index_fetch answer
            {| component := statistics_state w; browser := browser w |}).
Proof.
  unfold Page.in_index, Index.effect, RefreshFacts.after_index_fetch,
    Index.fetchEarthquakes, try_catch_finally, Index.fetch_try, bind, fetch,
    await, map_world, statistics_state.
  destruct answer as [e|r]; simpl; [repeat split|].
  destruct (Browser.ok r); simpl; [|repeat split].
  destruct (Browser.json r); simpl; repeat split.
Qed.

Lemma in_map_spec {A} (m : M EarthquakeMap.State A) (w : World Page.State) :
  fst (Page.in_map m w) = fst (m (map_world w))
  /\ map_world (snd (Page.in_map m w)) = snd (m (map_world w))
  /\ statistics_state (snd (Page.in_map m w)) = statistics_state w.
Proof.
  unfold Page.in_map, map_world, statistics_state.
  destruct (m _) as [r [c b]]. simpl. auto.
Qed.

(** Mounting the page is mounting the map and then running the page's
    effect. *)
Lemma mount_map_world (net : Page.Network) (w : World Page.State) :
  exists w1,
    map_world w1
    = Runtime.world (Runtime.mount (net Page.ByMap) (map_world w))
    /\ statistics_state w1 = statistics_state w
    /\ Page.world (Page.mount net w)
       = snd (Page.in_index
                (Index.effect (net Page.ByIndex (Browser.now (browser w1))))
                w1).
Proof.
  unfold Page.mount, Runtime.mount.
  change (Browser.now (browser (map_world w)))
    with (Browser.now (browser w)).
  destruct (in_map_spec
              (EarthquakeMap.effect
                 (net Page.ByMap (Browser.now (browser w)))) w)
    as (A & B & C).
  destruct (Page.in_map _ w) as [r w1].
  destruct (EarthquakeMap.effect _ (map_world w)) as [r' wm].
  simpl in A, B, C. subst r' wm.
  destruct r; simpl; exists w1; auto.
Qed.

Lemma repeat_shift {A} (a : A) (n : nat) (l : list A) :
  repeat a n ++ a :: l = repeat a (S n) ++ l.
Proof. induction n as [|n IH]; simpl; [reflexivity | rewrite IH; reflexivity]. Qed.

Lemma mounted_running (net : Page.Network) (w : World Page.State) :
  Browser.timers (browser w) = [] ->
  TimerFacts.running (Browser.now (browser w))
    (FEED_URL :: Browser.requests (browser w))
    (Browser.next_handle (browser w)) 0
    (map_world (Page.world (Page.mount net w)))
  /\ statistics_state (Page.world (Page.mount net w))
     = component
         (RefreshFacts.after_index_fetch
            (net Page.ByIndex (Browser.now (browser w)))
            {| component := statistics_state w; browser := Browser.start |})
  /\ component (map_world (Page.world (Page.mount net w)))
     = component
         (Runtime.world (Runtime.mount (net Page.ByMap) (map_world w))).
Proof.
  intros Ht.
  destruct (mount_map_world net w) as (w1 & A & B & C).
  destruct (TimerFacts.mount_running (net Page.ByMap) (map_world w) Ht)
    as [(R1 & R2 & R3) _].
  rewrite <- A in R1, R2, R3.
  unfold TimerFacts.clock, TimerFacts.active_timers, TimerFacts.started
    in R1, R2, R3.
  simpl in R1, R2, R3. rewrite Z.add_0_r in R1.
  rewrite C.
  destruct (index_effect_map_world
              (net Page.ByIndex (Browser.now (browser w1))) w1)
    as (E1 & E2 & E3 & E4 & E5).
  cbv zeta in E1, E2, E3, E4, E5.
  split; [|split].
  - unfold TimerFacts.running, TimerFacts.clock, TimerFacts.active_timers,
      TimerFacts.started.
    simpl. rewrite E2, E3, E4, R1, R2, R3.
    repeat split; try lia; reflexivity.
  - rewrite E5, B, R1.
    unfold RefreshFacts.after_index_fetch, Index.fetchEarthquakes,
      try_catch_finally, Index.fetch_try, bind, fetch, await.
    destruct (net Page.ByIndex (Browser.now (browser w))) as [e|r]; simpl;
      [reflexivity|].
    destruct (Browser.ok r); simpl; [|reflexivity].
    destruct (Browser.json r); reflexivity.
  - rewrite E1, <- A. reflexivity.
Qed.

(** X19. The statistics are fetched once.  While the page is mounted the
    timer starts one request every five minutes, after the two of the
    mount, and none of them changes what the statistics panel holds. *)
Theorem statistics_are_never_refreshed
  (net : Page.Network) (w : World Page.State) (alive : nat) :
  Browser.timers (browser w) = [] ->
  let mounted := Page.mount net w in
  let later := Page.elapse net alive mounted in
  statistics_state (Page.world later)
  = statistics_state (Page.world mounted)
  /\ Browser.requests (browser (Page.world later))
     = repeat FEED_URL (2 + Z.to_nat (Z.of_nat alive / 300000))
       ++ Browser.requests (browser w).
Proof.
  intros Ht. cbv zeta. unfold Page.elapse. simpl Page.world.
  destruct (run_for_map_world net alive (Page.world (Page.mount net w)))
    as [S1 S2].
  split; [exact S2|].
  destruct (mounted_running net w Ht) as [R _].
  pose proof (TimerFacts.run_for_running (net Page.ByMap) _ _ _ alive 0 _
                (Z.le_refl 0) R) as (_ & _ & H).
  rewrite <- S1 in H. rewrite Z.add_0_l in H.
  unfold TimerFacts.started in H. simpl in H.
  rewrite H. change EarthquakeMap.REFRESH_MS with 300000.
  rewrite (repeat_shift FEED_URL). reflexivity.
Qed.

Definition whole_page_load : World Page.State :=
  {| component := Page.initial_state; browser := Browser.start |}.

Definition feed_always (l : list EarthquakeData) : Page.Network :=
  fun _ _ => RefreshFacts.feed l.

(** An hour on the page: 2 + 12 requests. *)
Lemma statistics_are_never_refreshed_witness :
  Browser.timers (browser whole_page_load) = []
  /\ List.length
       (Browser.requests
          (browser (Page.world
                      (Page.elapse (feed_always Sample.events)
                         (Z.to_nat 3600000)
                         (Page.mount (feed_always Sample.events)
                                     whole_page_load)))))
     = 14%nat.
Proof.
  split; [reflexivity|].
  destruct (statistics_are_never_refreshed (feed_always Sample.events)
              whole_page_load (Z.to_nat 3600000) eq_refl) as [_ H].
  rewrite H, Z2Nat.id by lia.
  rewrite length_app, repeat_length. reflexivity.
Defined.

(** What a fetch leaves in the component depends on the component and
    the answer only. *)
Lemma fetch_component_only (answer : Browser.FetchResult)
  (w : World EarthquakeMap.State) (b : Browser.t) :
  component (RefreshFacts.after_map_fetch answer w)
  = component (RefreshFacts.after_map_fetch answer
                 {| component := component w; browser := b |}).
Proof.
  unfold RefreshFacts.after_map_fetch, EarthquakeMap.fetchEarthquakes,
    try_catch_finally, EarthquakeMap.fetch_try, EarthquakeMap.fetch_catch,
    bind, fetch, await.
  destruct answer as [e|r]; simpl; [reflexivity|].
  destruct (Browser.ok r); simpl; [|reflexivity].
  destruct (Browser.json r); reflexivity.
Qed.

Lemma run_for_snoc (net : Runtime.Network) (k : nat) :
  forall w, Runtime.run_for net (S k) w
            = Runtime.tick net (Runtime.run_for net k w).
Proof.
  induction k as [|k IH]; intros w; [reflexivity|].
  change (Runtime.run_for net (S (S k)) w)
    with (Runtime.run_for net (S k) (Runtime.tick net w)).
  rewrite IH. reflexivity.
Qed.

Lemma tick_component (net : Runtime.Network) start before h (n : Z)
  (w : World EarthquakeMap.State) :
  TimerFacts.running start before h n w ->
  component (Runtime.tick net w)
  = if start + EarthquakeMap.REFRESH_MS * (n / EarthquakeMap.REFRESH_MS + 1)
       =? start + n + 1
    then component (RefreshFacts.after_map_fetch (net (start + n + 1)) w)
    else component w.
Proof.
  intros (Hc & Ht & _).
  unfold TimerFacts.clock, TimerFacts.active_timers in Hc, Ht.
  unfold Runtime.tick, Runtime.advance_clock, on_browser. simpl.
  rewrite Ht. simpl. rewrite Hc.
  destruct (_ =? _); [|reflexivity].
  unfold Runtime.fire, bind, Runtime.reschedule, on_browser,
    Runtime.run_callback.
  simpl. try rewrite Hc.
  symmetry. apply fetch_component_only.
Qed.

Lemma before_first_refresh (net : Runtime.Network) start before h
  (w : World EarthquakeMap.State) :
  TimerFacts.running start before h 0 w ->
  forall k : nat,
    Z.of_nat k < EarthquakeMap.REFRESH_MS ->
    component (Runtime.run_for net k w) = component w.
Proof.
  intros R. induction k as [|k IH]; intros Hk; [reflexivity|].
  rewrite run_for_snoc.
  pose proof (TimerFacts.run_for_running net _ _ _ k 0 _ (Z.le_refl 0) R)
    as Rk.
  rewrite Z.add_0_l in Rk.
  rewrite (tick_component net _ _ _ _ _ Rk).
  change EarthquakeMap.REFRESH_MS with 300000 in *.
  rewrite Z.div_small by lia.
  destruct (Z.eqb_spec (start + 300000 * (0 + 1)) (start + Z.of_nat k + 1));
    [lia|].
  apply IH. lia.
Qed.

Lemma at_first_refresh (net : Runtime.Network) start before h
  (w : World EarthquakeMap.State) (five_minutes : nat) :
  Z.of_nat five_minutes = 300000 ->
  TimerFacts.running start before h 0 w ->
  component (Runtime.run_for net five_minutes w)
  = component (RefreshFacts.after_map_fetch (net (start + 300000)) w).
Proof.
  intros H5 R. destruct five_minutes as [|k]; [discriminate|].
  assert (Hk : Z.of_nat k = 299999) by lia.
  rewrite run_for_snoc.
  pose proof (TimerFacts.run_for_running net _ _ _ k 0 _ (Z.le_refl 0) R)
    as Rk.
  rewrite Z.add_0_l, Hk in Rk.
  rewrite (tick_component net _ _ _ _ _ Rk).
  change EarthquakeMap.REFRESH_MS with 300000.
  rewrite Z.div_small by lia.
  destruct (Z.eqb_spec (start + 300000 * (0 + 1)) (start + 299999 + 1));
    [|lia].
  replace (start + 299999 + 1) with (start + 300000) by lia.
  rewrite (fetch_component_only _ (Runtime.run_for net k w) (browser w)).
  rewrite (before_first_refresh net _ _ _ w R)
    by (change EarthquakeMap.REFRESH_MS with 300000; lia).
  destruct w as [c b]. reflexivity.
Qed.

(** X20. After the first refresh the page is out of step with itself: the
    map shows the collection the feed delivered at five minutes, and the
    statistics panel still holds the one delivered when the page was
    mounted. *)
Theorem statistics_lag_behind_map
  (net : Page.Network) (w : World Page.State)
  (at_mount at_refresh : list EarthquakeData) (five_minutes : nat) :
  Z.of_nat five_minutes = 300000 ->
  Browser.timers (browser w) = [] ->
  RefreshFacts.delivers (net Page.ByMap (Browser.now (browser w))) at_mount ->
  RefreshFacts.delivers (net Page.ByIndex (Browser.now (browser w)))
                        at_mount ->
  RefreshFacts.delivers
    (net Page.ByMap (Browser.now (browser w) + 300000)) at_refresh ->
  let later :=
    Page.world (Page.elapse net five_minutes (Page.mount net w)) in
  EarthquakeMap.earthquakes (Page.earthquake_map (component later))
  = at_refresh
  /\ Index.earthquakes (Page.index (component later)) = at_mount
  /\ fst (Page.render (component later))
     = MapRender.Map
         (map MapRender.marker at_refresh) EarthquakeMap.legend
         (option_map MapRender.details
            (EarthquakeMap.selectedEarthquake
               (Page.earthquake_map (component w)))).
Proof.
  intros H5 Ht Hm Hi Hr. cbv zeta. unfold Page.elapse. cbn [Page.world].
  destruct (mounted_running net w Ht) as (R & I & M).
  remember (Page.world (Page.mount net w)) as mounted eqn:Em.
  destruct (run_for_map_world net five_minutes mounted) as [S1 S2].
  remember (Page.run_for net five_minutes mounted) as later eqn:El.
  pose proof (at_first_refresh (net Page.ByMap) _ _ _ _ _ H5 R) as F.
  rewrite <- S1 in F.
  destruct (RefreshFacts.delivered_fetch_state _ _ (map_world mounted) Hr)
    as (D1 & D2 & D3 & D4 & _).
  rewrite <- F in D1, D2, D3, D4.
  assert (Hsel : EarthquakeMap.selectedEarthquake
                   (component (map_world mounted))
                 = EarthquakeMap.selectedEarthquake
                     (Page.earthquake_map (component w))).
  { rewrite M. unfold Runtime.mount, EarthquakeMap.effect, bind.
    change (Browser.now (browser (map_world w)))
      with (Browser.now (browser w)).
    pose proof (RefreshFacts.map_fetch_settles
                  (net Page.ByMap (Browser.now (browser w))) (map_world w))
      as [_ Hs].
    unfold RefreshFacts.after_map_fetch in Hs.
    destruct (EarthquakeMap.fetchEarthquakes _ (map_world w))
      as [[u|e] w1]; exact Hs. }
  change (Page.earthquake_map (component later))
    with (component (map_world later)).
  change (Page.index (component later)) with (statistics_state later).
  split; [exact D1|]. split.
  - rewrite S2, I.
    destruct (RefreshFacts.index_fetch_state
                (net Page.ByIndex (Browser.now (browser w)))
                {| component := statistics_state w;
                   browser := Browser.start |}) as (_ & Hd & _).
    exact (Hd _ Hi).
  - unfold Page.render, MapRender.render. cbn [fst].
    change (Page.earthquake_map (component later))
      with (component (map_world later)).
    rewrite D3, D2, D1, D4, Hsel. reflexivity.
Qed.

Definition changing_feed : Page.Network :=
  fun _ t =>
    if t <? 300000 then RefreshFacts.feed Sample.events
    else RefreshFacts.feed Sample.tied.

(** Three events at the mount, four at the first refresh: four markers
    beside statistics of three. *)
Lemma statistics_lag_behind_map_witness :
  Browser.timers (browser whole_page_load) = []
  /\ RefreshFacts.delivers (changing_feed Page.ByMap 0) Sample.events
  /\ RefreshFacts.delivers (changing_feed Page.ByMap 300000) Sample.tied
  /\ (let later :=
        Page.world (Page.elapse changing_feed (Z.to_nat 300000)
                                (Page.mount changing_feed whole_page_load)) in
      EarthquakeMap.earthquakes (Page.earthquake_map (component later))
      = Sample.tied
      /\ Index.earthquakes (Page.index (component later)) = Sample.events).
Proof.
  split; [reflexivity|].
  split; [apply RefreshFacts.feed_delivers|].
  split; [apply RefreshFacts.feed_delivers|].
  destruct (statistics_lag_behind_map changing_feed whole_page_load
              Sample.events Sample.tied (Z.to_nat 300000)
              (Z2Nat.id 300000 ltac:(lia)) eq_refl
              (RefreshFacts.feed_delivers _) (RefreshFacts.feed_delivers _)
              (RefreshFacts.feed_delivers _)) as (H1 & H2 & _).
  split; [exact H1 | exact H2].
Defined.

End PageFacts.
